(** * Streamlit Google sign-in demo: a shallow embedding of [st_test_lg_1.py]

    The script keeps a three-field session ([user_info],
    [is_authenticated], [credentials]) in Streamlit's session state and
    drives Google's OAuth2 authorization-code flow from [main].

    Python values are embedded as an inductive type with Python's
    truthiness; the script's effects (session writes, query parameters,
    rendered widgets, outbound calls, raised exceptions) are threaded
    through a small state-and-exception monad over an explicit [world].
    The identity provider and the HTTP client are outside the script and
    appear as the [Provider] record: what they answer is an input. *)

From Stdlib Require Import String Ascii List ZArith Bool Lia.
From stdpp Require Import base strings gmap.
Import ListNotations.
Set Warnings "-register-all".

(** ** Python values *)

(** What [response.json()] can hand back, and what the session stores.
    Dictionaries are association lists in insertion order; numbers are
    integers, the script only tests a value's truth and reads fields
    of a dictionary. *)
Inductive pyval : Type :=
| PNone
| PBool (b : bool)
| PInt (z : Z)
| PStr (s : string)
| PList (l : list pyval)
| PDict (kvs : list (string * pyval)).

(** Python truth value testing: [None], [False], zero, and empty
    strings and containers are false. *)
Definition truthy (v : pyval) : bool :=
  match v with
  | PNone => false
  | PBool b => b
  | PInt z => negb (z =? 0)%Z
  | PStr s => negb (String.eqb s "")
  | PList l => match l with [] => false | _ => true end
  | PDict kvs => match kvs with [] => false | _ => true end
  end.

(** Truth value of an [Optional[str]] such as [os.getenv(...)] or the
    [code] query parameter. *)
Definition truthy_str (o : option string) : bool :=
  match o with
  | None => false
  | Some s => negb (String.eqb s "")
  end.

(** [d.get(k, default)] on a dictionary held as an association list. *)
Fixpoint dict_get (kvs : list (string * pyval)) (k : string) (default : pyval) : pyval :=
  match kvs with
  | [] => default
  | (k', v) :: rest => if String.eqb k' k then v else dict_get rest k default
  end.

(** ** Exceptions and outcomes *)

(** A raised Python [Exception]: its class name and [str(e)]. *)
Record exn : Type := Exn { exn_class : string; exn_str : string }.

(** How a call ends.  [Rerun] is Streamlit's rerun signal raised by
    [st.experimental_rerun()]; it derives from [BaseException], so an
    [except Exception] clause lets it through. *)
Inductive outcome (A : Type) : Type :=
| Return (a : A)
| Raise (e : exn)
| Rerun.
Arguments Return {A} a.
Arguments Raise {A} e.
Arguments Rerun {A}.

(** What an external call answers: a value, or a raised exception. *)
Inductive answer (A : Type) : Type :=
| Answered (a : A)
| Threw (e : exn).
Arguments Answered {A} a.
Arguments Threw {A} e.

(** ** Session state *)

(** A key of [st.session_state]: not yet set, or holding a value. *)
Inductive slot (A : Type) : Type :=
| Absent
| Present (a : A).
Arguments Absent {A}.
Arguments Present {A} a.

(** The dictionary [main] stores under [credentials] (lines 136-143). *)
Record cred_dict : Type := CredDict {
  cd_token : string;
  cd_refresh_token : option string;
  cd_token_uri : string;
  cd_client_id : option string;
  cd_client_secret : option string;
  cd_scopes : list string
}.

(** [st.session_state], restricted to the three keys the script uses.
    [credentials] holds [None] after a sign-out and a dictionary after
    a completed authentication. *)
Record session_state : Type := Session {
  user_info : slot pyval;
  is_authenticated : slot bool;
  credentials : slot (option cred_dict)
}.


(** ** Events *)

(** Everything observable that a run does, in order: widgets rendered,
    outbound calls, and assignments to the session. *)
Inductive event : Type :=
| UiTitle (s : string)
| UiError (s : string)
| UiInfo (s : string)
| UiWrite (s : string)
| UiMarkdown (s : string)
| UiSpinner (s : string)
| UiWelcome (name : pyval)
| UiImage (url : pyval)
| UiEmail (email : pyval)
| UiGoogleId (id : pyval)
| UiSignOutButton
| UiSignInLink (href : string)
| NetTokenExchange (token_uri : string) (code : string)
| NetUserInfoGet (url : string) (authorization : string)
| SetUserInfo (v : pyval)
| SetIsAuthenticated (b : bool)
| SetCredentials (c : option cred_dict).

Definition is_network (e : event) : bool :=
  match e with
  | NetTokenExchange _ _ | NetUserInfoGet _ _ => true
  | _ => false
  end.

Definition is_session_write (e : event) : bool :=
  match e with
  | SetUserInfo _ | SetIsAuthenticated _ | SetCredentials _ => true
  | _ => false
  end.

Definition is_user_info_get (e : event) : bool :=
  match e with
  | NetUserInfoGet _ _ => true
  | _ => false
  end.

Definition is_authentication (e : event) : bool :=
  match e with
  | SetIsAuthenticated true => true
  | _ => false
  end.

(** ** The world a run acts on *)

Record world : Type := World {
  session : session_state;
  (* the page URL's query string, as [st.experimental_get_query_params] parses it *)
  query_params : gmap string (list string);
  (* events so far, oldest first *)
  trace : list event;
  (* how many random tokens the OAuth library has drawn *)
  drawn : nat
}.

Definition set_session (s : session_state) (w : world) : world :=
  {| session := s; query_params := query_params w; trace := trace w; drawn := drawn w |}.

Definition set_query (q : gmap string (list string)) (w : world) : world :=
  {| session := session w; query_params := q; trace := trace w; drawn := drawn w |}.

Definition log (e : event) (w : world) : world :=
  {| session := session w; query_params := query_params w;
     trace := trace w ++ [e]; drawn := drawn w |}.

Definition draw (w : world) : world :=
  {| session := session w; query_params := query_params w;
     trace := trace w; drawn := S (drawn w) |}.

(** ** The state-and-exception monad *)

Definition M (A : Type) : Type := world -> outcome A * world.

Definition ret {A} (a : A) : M A := fun w => (Return a, w).

Definition bind {A B} (m : M A) (k : A -> M B) : M B :=
  fun w =>
    match m w with
    | (Return a, w') => k a w'
    | (Raise e, w') => (Raise e, w')
    | (Rerun, w') => (Rerun, w')
    end.

Declare Scope py_scope.
Delimit Scope py_scope with py.
Notation "x <- m ;; k" := (bind m (fun x => k))
  (at level 100, m at next level, right associativity) : py_scope.
Notation "m ;; k" := (bind m (fun _ => k))
  (at level 100, right associativity) : py_scope.
Local Open Scope py_scope.

Definition raise {A} (e : exn) : M A := fun w => (Raise e, w).

(** [try: body / except Exception as e: handler(e)].  State changes
    made before the exception stay; the rerun signal is not caught. *)
Definition try_except {A} (body : M A) (handler : exn -> M A) : M A :=
  fun w =>
    match body w with
    | (Raise e, w') => handler e w'
    | r => r
    end.

Definition emit (e : event) : M unit := fun w => (Return tt, log e w).

(** Streamlit widgets. *)
Definition st_title (s : string) : M unit := emit (UiTitle s).
Definition st_error (s : string) : M unit := emit (UiError s).
Definition st_info (s : string) : M unit := emit (UiInfo s).
Definition st_write (s : string) : M unit := emit (UiWrite s).
Definition st_markdown (s : string) : M unit := emit (UiMarkdown s).
Definition st_spinner (s : string) : M unit := emit (UiSpinner s).

Definition st_experimental_get_query_params : M (gmap string (list string)) :=
  fun w => (Return (query_params w), w).

Definition st_experimental_set_query_params : M unit :=
  fun w => (Return tt, set_query ∅ w).

Definition st_experimental_rerun {A} : M A := fun w => (Rerun, w).

(** Attribute reads of [st.session_state]: a missing key raises
    [AttributeError]. *)
Definition attribute_error (name : string) : exn :=
  Exn "AttributeError" ("st.session_state has no attribute " +:+ name).

Definition read_user_info : M pyval :=
  fun w =>
    match user_info (session w) with
    | Present v => (Return v, w)
    | Absent => (Raise (attribute_error "user_info"), w)
    end.

Definition read_is_authenticated : M bool :=
  fun w =>
    match is_authenticated (session w) with
    | Present b => (Return b, w)
    | Absent => (Raise (attribute_error "is_authenticated"), w)
    end.

(** Attribute writes of [st.session_state]. *)
Definition write_user_info (v : pyval) : M unit :=
  fun w =>
    let s := session w in
    (Return tt,
     log (SetUserInfo v)
       (set_session {| user_info := Present v;
                       is_authenticated := is_authenticated s;
                       credentials := credentials s |} w)).

Definition write_is_authenticated (b : bool) : M unit :=
  fun w =>
    let s := session w in
    (Return tt,
     log (SetIsAuthenticated b)
       (set_session {| user_info := user_info s;
                       is_authenticated := Present b;
                       credentials := credentials s |} w)).

Definition write_credentials (c : option cred_dict) : M unit :=
  fun w =>
    let s := session w in
    (Return tt,
     log (SetCredentials c)
       (set_session {| user_info := user_info s;
                       is_authenticated := is_authenticated s;
                       credentials := Present c |} w)).

(** ** Process configuration (lines 11-18) *)

(** [os.getenv(name)] and [os.getenv(name, default)] over the process
    environment. *)
Definition getenv (environ : gmap string string) (name : string) : option string :=
  environ !! name.

Definition getenv_default (environ : gmap string string) (name default : string) : string :=
  match environ !! name with
  | Some v => v
  | None => default
  end.

Definition CLIENT_ID (environ : gmap string string) : option string :=
  getenv environ "GOOGLE_CLIENT_ID".

Definition CLIENT_SECRET (environ : gmap string string) : option string :=
  getenv environ "GOOGLE_CLIENT_SECRET".

Definition REDIRECT_URI (environ : gmap string string) : string :=
  getenv_default environ "REDIRECT_URI" "https://your-app-name.streamlit.app".

Definition SCOPES : list string :=
  ["openid";
   "https://www.googleapis.com/auth/userinfo.email";
   "https://www.googleapis.com/auth/userinfo.profile"].

(** ** Session initialisation (lines 20-24) *)

Definition init_session_state : M unit :=
  (fun w =>
     match user_info (session w) with
     | Absent => write_user_info PNone w
     | Present _ => ret tt w
     end) ;;
  (fun w =>
     match is_authenticated (session w) with
     | Absent => write_is_authenticated false w
     | Present _ => ret tt w
     end).

(** The session as the first run of the script finds it in [main]. *)
Definition initial_session : session_state :=
  {| user_info := Present PNone; is_authenticated := Present false; credentials := Absent |}.

(** ** The OAuth flow object and the outside world *)

(** The [Flow] that [create_flow] builds: the [web] client
    configuration, the scopes, and the redirect URI set on it. *)
Record Flow : Type := MkFlow {
  client_id : option string;
  client_secret : option string;
  auth_uri : string;
  token_uri : string;
  redirect_uris : list string;
  scopes : list string;
  redirect_uri : option string
}.

(** The token endpoint's JSON answer, as far as the script reads it. *)
Record token_response : Type := TokenResponse {
  access_token : string;
  refresh_token : option string
}.

(** The [Credentials] object [flow.credentials] returns. *)
Record Credentials : Type := MkCredentials {
  cr_token : string;
  cr_refresh_token : option string;
  cr_token_uri : string;
  cr_client_id : option string;
  cr_client_secret : option string;
  cr_scopes : list string
}.

(** A [requests] response: the status code and what [response.json()]
    gives, a parsed value or a raised decoding error. *)
Record response : Type := Response {
  status_code : Z;
  json : answer pyval
}.

(** The collaborators outside the script. *)
Record Provider : Type := MkProvider {
  (* the token endpoint, as [flow.fetch_token(code=code)] reaches it *)
  token_endpoint : Flow -> string -> answer token_response;
  (* [requests.get(url, headers={'Authorization': a})] *)
  requests_get : string -> string -> answer response;
  (* the n-th value of the OAuth library's random token generator *)
  generate_token : nat -> string
}.

(** ** URL encoding, as the OAuth library renders a request *)

Definition always_safe (c : ascii) : bool :=
  let n := nat_of_ascii c in
  ((48 <=? n) && (n <=? 57)) || ((65 <=? n) && (n <=? 90)) ||
  ((97 <=? n) && (n <=? 122)) ||
  (n =? 45) || (n =? 46) || (n =? 95) || (n =? 126).

Definition hex_digit (n : nat) : ascii :=
  nth n (list_ascii_of_string "0123456789ABCDEF") "0"%char.

Definition percent_byte (c : ascii) : string :=
  let n := nat_of_ascii c in
  String "%" (String (hex_digit (n / 16)) (String (hex_digit (n mod 16)) "")).

(** [urllib.parse.quote_plus(s)] with no extra safe characters. *)
Fixpoint quote_plus (s : string) : string :=
  match s with
  | EmptyString => ""
  | String c rest =>
      (if always_safe c then String c ""
       else if Ascii.eqb c " " then "+"
       else percent_byte c) +:+ quote_plus rest
  end.

Definition encode_pair (kv : string * string) : string :=
  quote_plus (fst kv) +:+ "=" +:+ quote_plus (snd kv).

(** [urlencode(params)]: pairs joined by [&]. *)
Definition urlencode (params : list (string * string)) : string :=
  String.concat "&" (map encode_pair params).

(** [str(x)] of an [Optional[str]]. *)
Definition str_of (o : option string) : string :=
  match o with
  | Some s => s
  | None => "None"
  end.

(** The query parameters of an authorization request, in the order the
    OAuth library appends them: the fixed ones, then the redirect URI,
    scope and state when they are non-empty, then the non-empty keyword
    arguments of the call. *)
Definition grant_params (flow : Flow) (state : string) (kwargs : list (string * string))
  : list (string * string) :=
  [("response_type", "code"); ("client_id", str_of (client_id flow))] ++
  (if truthy_str (redirect_uri flow) then [("redirect_uri", str_of (redirect_uri flow))] else []) ++
  (match scopes flow with [] => [] | _ => [("scope", String.concat " " (scopes flow))] end) ++
  (if truthy_str (Some state) then [("state", state)] else []) ++
  List.filter (fun kv => truthy_str (Some (snd kv))) kwargs.

(** [flow.authorization_url] with keyword arguments: draws a fresh state token and
    returns the URL together with that state. *)
Definition Flow_authorization_url (net : Provider) (flow : Flow)
    (kwargs : list (string * string)) : M (string * string) :=
  fun w =>
    let state := generate_token net (drawn w) in
    (Return (auth_uri flow +:+ "?" +:+ urlencode (grant_params flow state kwargs), state),
     draw w).

(** [flow.fetch_token(code=code)]: one call to the token endpoint; a
    rejected or failed exchange raises. *)
Definition Flow_fetch_token (net : Provider) (flow : Flow) (code : string) : M token_response :=
  emit (NetTokenExchange (token_uri flow) code) ;;
  match token_endpoint net flow code with
  | Answered t => ret t
  | Threw e => raise e
  end.

(** [flow.credentials] once a token has been fetched. *)
Definition Flow_credentials (flow : Flow) (t : token_response) : Credentials :=
  {| cr_token := access_token t;
     cr_refresh_token := refresh_token t;
     cr_token_uri := token_uri flow;
     cr_client_id := client_id flow;
     cr_client_secret := client_secret flow;
     cr_scopes := scopes flow |}.

(** [response.json()]. *)
Definition response_json (r : response) : M pyval :=
  match json r with
  | Answered v => ret v
  | Threw e => raise e
  end.

(** [requests.get(url, headers={'Authorization': a})]. *)
Definition requests_get_call (net : Provider) (url authorization : string) : M response :=
  emit (NetUserInfoGet url authorization) ;;
  match requests_get net url authorization with
  | Answered r => ret r
  | Threw e => raise e
  end.

(** ** The script's functions *)

Section Script.

Variable environ : gmap string string.
Variable net : Provider.

(** Lines 27-42. *)
Definition create_flow : Flow :=
  {| client_id := CLIENT_ID environ;
     client_secret := CLIENT_SECRET environ;
     auth_uri := "https://accounts.google.com/o/oauth2/auth";
     token_uri := "https://oauth2.googleapis.com/token";
     redirect_uris := [REDIRECT_URI environ];
     scopes := SCOPES;
     redirect_uri := Some (REDIRECT_URI environ) |}.

(** Lines 45-53: the state the library returns is bound and dropped. *)
Definition get_authorization_url : M string :=
  let flow := create_flow in
  r <- Flow_authorization_url net flow
         [("access_type", "offline");
          ("include_granted_scopes", "true");
          ("prompt", "consent")] ;;
  let authorization_url := fst r in
  ret authorization_url.

(** Lines 56-61. *)
Definition exchange_code_for_token (code : string) : M Credentials :=
  let flow := create_flow in
  t <- Flow_fetch_token net flow code ;;
  let credentials := Flow_credentials flow t in
  ret credentials.

(** Lines 64-72. *)
Definition get_user_info (credentials : Credentials) : M pyval :=
  response <- requests_get_call net
                "https://www.googleapis.com/oauth2/v2/userinfo"
                ("Bearer " +:+ cr_token credentials) ;;
  if (status_code response =? 200)%Z then response_json response
  else ret PNone.

(** Lines 75-79. *)
Definition sign_out : M unit :=
  write_user_info PNone ;;
  write_is_authenticated false ;;
  write_credentials None.

(** Lines 82-100.  A truthy [user_info] that is not a dictionary has
    no [get] method. *)
Definition display_user_info : M unit :=
  info <- read_user_info ;;
  if truthy info then
    match info with
    | PDict kvs =>
        emit (UiWelcome (dict_get kvs "name" (PStr "User"))) ;;
        let picture_url := dict_get kvs "picture" PNone in
        (if truthy picture_url then emit (UiImage picture_url) else ret tt) ;;
        emit (UiEmail (dict_get kvs "email" (PStr "Not available"))) ;;
        emit (UiGoogleId (dict_get kvs "id" (PStr "Not available"))) ;;
        emit UiSignOutButton
    | _ => raise (Exn "AttributeError" "object has no attribute 'get'")
    end
  else st_error "User information is not available.".

(** [query_params.get("code", [None])[0]] (line 116): [None] when the
    parameter is missing, its first value otherwise; indexing an empty
    list raises. *)
Definition first_code (query : gmap string (list string)) : M (option string) :=
  match query !! "code" with
  | None => ret None
  | Some (c :: _) => ret (Some c)
  | Some [] => raise (Exn "IndexError" "list index out of range")
  end.

(** [st.session_state.is_authenticated and st.session_state.user_info]
    (line 119), with Python's short-circuit evaluation. *)
Definition already_authenticated : M bool :=
  flag <- read_is_authenticated ;;
  if flag then
    info <- read_user_info ;;
    ret (truthy info)
  else ret false.

(** Lines 129-151: the body of the [try] and its handler. *)
Definition complete_authentication (code : string) : M unit :=
  try_except
    (credentials <- exchange_code_for_token code ;;
     info <- get_user_info credentials ;;
     if truthy info then
       write_user_info info ;;
       write_is_authenticated true ;;
       write_credentials
         (Some {| cd_token := cr_token credentials;
                  cd_refresh_token := cr_refresh_token credentials;
                  cd_token_uri := cr_token_uri credentials;
                  cd_client_id := cr_client_id credentials;
                  cd_client_secret := cr_client_secret credentials;
                  cd_scopes := cr_scopes credentials |}) ;;
       st_experimental_set_query_params ;;
       st_experimental_rerun
     else st_error "Failed to get user information.")
    (fun e => st_error ("Authentication error: " +:+ exn_str e)).

(** Lines 153-186. *)
Definition show_login : M unit :=
  st_write "### Please sign in to continue" ;;
  st_markdown "This application requires Google authentication. Click the button below to sign in with your Google account." ;;
  auth_url <- get_authorization_url ;;
  emit (UiSignInLink auth_url) ;;
  st_write "You will be redirected to Google for authentication.".

(** Lines 103-186. *)
Definition main : M unit :=
  st_title "Streamlit Google Authentication" ;;
  if negb (truthy_str (CLIENT_ID environ)) || negb (truthy_str (CLIENT_SECRET environ)) then
    st_error "Google OAuth credentials are not set. Please set the GOOGLE_CLIENT_ID and GOOGLE_CLIENT_SECRET environment variables." ;;
    st_info "For local development, you can use: export GOOGLE_CLIENT_ID=your_client_id export GOOGLE_CLIENT_SECRET=your_client_secret export REDIRECT_URI=your_redirect_uri" ;;
    ret tt
  else
    query <- st_experimental_get_query_params ;;
    code <- first_code query ;;
    authenticated <- already_authenticated ;;
    if authenticated then
      display_user_info ;;
      st_write "## Your Application Content" ;;
      st_write "This is the protected area of your application."
    else if truthy_str code then
      st_spinner "Completing authentication..." ;;
      complete_authentication (default "" code)
    else show_login.

End Script.

(** ** Vocabulary of the specification *)

(** The two session states: the flag [main] tests first on line 119. *)
Definition Authenticated (s : session_state) : Prop :=
  is_authenticated s = Present true.

Definition Unauthenticated (s : session_state) : Prop :=
  is_authenticated s = Present false.

(** A configuration value that is absent or empty. *)
Definition unset (o : option string) : Prop := o = None \/ o = Some "".

(** The process configuration passes the check of line 107. *)
Definition configured (environ : gmap string string) : Prop :=
  truthy_str (CLIENT_ID environ) = true /\ truthy_str (CLIENT_SECRET environ) = true.

(** The request carries [code] as the first value of its [code] parameter. *)
Definition carries_code (w : world) (code : string) : Prop :=
  exists rest, query_params w !! "code" = Some (code :: rest).

(** The events of a run: what [w'] logged beyond [w]. *)
Definition events_since (w w' : world) (delta : list event) : Prop :=
  trace w' = trace w ++ delta.

(** What a run shows to the outside, leaving out the request's own
    query string. *)
Definition observe {A} (r : outcome A * world)
  : outcome A * session_state * list event * nat :=
  (fst r, session (snd r), trace (snd r), drawn (snd r)).

Definition userinfo_url : string := "https://www.googleapis.com/oauth2/v2/userinfo".

Definition bearer (t : token_response) : string := "Bearer " +:+ access_token t.

(** The dictionary stored under [credentials] after an exchange that
    returned [t]. *)
Definition stored_credentials (environ : gmap string string) (t : token_response) : cred_dict :=
  {| cd_token := access_token t;
     cd_refresh_token := refresh_token t;
     cd_token_uri := "https://oauth2.googleapis.com/token";
     cd_client_id := CLIENT_ID environ;
     cd_client_secret := CLIENT_SECRET environ;
     cd_scopes := SCOPES |}.

(** The token exchange for [code] raises. *)
Definition exchange_fails (environ : gmap string string) (net : Provider) (code : string) : Prop :=
  exists e, token_endpoint net (create_flow environ) code = Threw e.

(** The ways the profile fetch with token [t] can fail to give [main] a
    profile: the request raises, the status is not 200, the body does
    not parse, or the parsed value is empty. *)
Inductive profile_fetch_fails (net : Provider) (t : token_response) : Prop :=
| fetch_raises e :
    requests_get net userinfo_url (bearer t) = Threw e ->
    profile_fetch_fails net t
| fetch_bad_status r :
    requests_get net userinfo_url (bearer t) = Answered r ->
    status_code r <> 200%Z ->
    profile_fetch_fails net t
| fetch_malformed r e :
    requests_get net userinfo_url (bearer t) = Answered r ->
    status_code r = 200%Z ->
    json r = Threw e ->
    profile_fetch_fails net t
| fetch_empty r v :
    requests_get net userinfo_url (bearer t) = Answered r ->
    status_code r = 200%Z ->
    json r = Answered v ->
    truthy v = false ->
    profile_fetch_fails net t.

(** The exchange for the request's code answers [t] and the profile
    fetch with [t] answers 200 with the non-empty value [profile]. *)
Definition exchange_and_fetch_succeed (environ : gmap string string) (net : Provider)
    (w : world) (code : string) (t : token_response) (profile : pyval) : Prop :=
  carries_code w code /\ code <> "" /\
  token_endpoint net (create_flow environ) code = Answered t /\
  exists r, requests_get net userinfo_url (bearer t) = Answered r /\
            status_code r = 200%Z /\ json r = Answered profile /\
            truthy profile = true.

(** Sessions reachable from the initial one by runs of [main], on any
    request and against any provider, and by sign-outs. *)
Inductive reachable (environ : gmap string string) : session_state -> Prop :=
| reach_initial : reachable environ initial_session
| reach_main net w :
    reachable environ (session w) ->
    reachable environ (session (snd (main environ net w)))
| reach_sign_out w :
    reachable environ (session w) ->
    reachable environ (session (snd (sign_out w))).

(** The session right after a sign-out. *)
Definition signed_out_session : session_state :=
  {| user_info := Present PNone; is_authenticated := Present false;
     credentials := Present None |}.

(** ** Notions used in the proofs *)

(** The keyword arguments [get_authorization_url] passes (lines 49-51). *)
Definition authorization_kwargs : list (string * string) :=
  [("access_type", "offline"); ("include_granted_scopes", "true"); ("prompt", "consent")].

(** The session writes of a completed authentication (lines 134-143),
    followed by the clearing of the query string (line 146). *)
Definition authenticated_world (environ : gmap string string)
    (t : token_response) (profile : pyval) (w : world) : world :=
  set_query ∅
    (log (SetCredentials (Some (stored_credentials environ t)))
       (set_session
          {| user_info := Present profile;
             is_authenticated := Present true;
             credentials := Present (Some (stored_credentials environ t)) |}
          (log (SetIsAuthenticated true) (log (SetUserInfo profile) w)))).

(** The branching of [main] once it has read the code (lines 118-186). *)
Definition after_code (environ : gmap string string) (net : Provider)
    (code : option string) : M unit :=
  authenticated <- already_authenticated ;;
  if authenticated then
    display_user_info ;;
    st_write "## Your Application Content" ;;
    st_write "This is the protected area of your application."
  else if truthy_str code then
    st_spinner "Completing authentication..." ;;
    complete_authentication environ net (default "" code)
  else show_login environ net.

(** Two worlds that differ at most in the request's query string. *)
Definition same_but_query (w1 w2 : world) : Prop :=
  session w1 = session w2 /\ trace w1 = trace w2 /\ drawn w1 = drawn w2.

(** A computation that never looks at the query string. *)
Definition query_blind {A} (m : M A) : Prop :=
  forall w1 w2, same_but_query w1 w2 ->
    fst (m w1) = fst (m w2) /\ same_but_query (snd (m w1)) (snd (m w2)).

(** An event that is neither an outbound call nor a session write. *)
Definition local_event (e : event) : Prop :=
  is_network e = false /\ is_session_write e = false.

(** A computation that stays local: it leaves the session as it is and
    logs neither an outbound call nor a session write. *)
Definition passive {A} (m : M A) : Prop :=
  forall w, session (snd (m w)) = session w /\
    exists delta, events_since w (snd (m w)) delta /\ Forall local_event delta.

(** What holds of every reachable session. *)
Definition session_invariant (s : session_state) : Prop :=
  (Authenticated s \/ Unauthenticated s) /\
  (exists v, user_info s = Present v) /\
  (Authenticated s ->
   exists profile c,
     user_info s = Present profile /\ truthy profile = true /\
     credentials s = Present (Some c)).

(** ** Sample inputs *)

Module Sample.

Definition environ : gmap string string :=
  <["GOOGLE_CLIENT_ID" := "client-1"]> (<["GOOGLE_CLIENT_SECRET" := "s3cret"]> ∅).

(* the client secret is set but empty *)
Definition environ_no_secret : gmap string string :=
  <["GOOGLE_CLIENT_ID" := "client-1"]> (<["GOOGLE_CLIENT_SECRET" := ""]> ∅).

Definition tokens : token_response :=
  {| access_token := "tok123"; refresh_token := Some "ref456" |}.

Definition ada : pyval :=
  PDict [("id", PStr "42"); ("name", PStr "Ada"); ("email", PStr "a@x.com")].

(* a profile without an id *)
Definition anonymous : pyval := PDict [("name", PStr "Ada")].

Definition nonce (n : nat) : string :=
  match n with
  | 0 => "nonce-0"
  | _ => "nonce-1"
  end.

(* the provider answers the exchange with [tokens] and the profile
   request with [resp] *)
Definition provider (resp : answer response) : Provider :=
  {| token_endpoint := fun _ _ => Answered tokens;
     requests_get := fun _ _ => resp;
     generate_token := nonce |}.

Definition ok (v : pyval) : answer response :=
  Answered {| status_code := 200; json := Answered v |}.

Definition malformed : answer response :=
  Answered {| status_code := 200;
              json := Threw (Exn "JSONDecodeError" "Expecting value: line 1 column 1 (char 0)") |}.

(* the provider rejects the exchange *)
Definition rejecting : Provider :=
  {| token_endpoint := fun _ _ => Threw (Exn "InvalidGrantError" "(invalid_grant) Bad Request");
     requests_get := fun _ _ => ok ada;
     generate_token := nonce |}.

Definition request (s : session_state) (query : gmap string (list string)) : world :=
  {| session := s; query_params := query; trace := []; drawn := 0 |}.

Definition callback : gmap string (list string) := <["code" := ["abc"]]> ∅.

Definition forged_callback : gmap string (list string) :=
  <["state" := ["forged"]]> (<["code" := ["abc"]]> ∅).

Definition signed_in : session_state :=
  {| user_info := Present ada; is_authenticated := Present true;
     credentials := Present (Some (stored_credentials environ tokens)) |}.

End Sample.

(** ** The script as a whole, and notions for its further properties *)



(** A computation that neither asks for a rerun nor touches the
    session or the query string. *)
Definition steady {A} (m : M A) : Prop :=
  forall w, fst (m w) <> Rerun /\
            session (snd (m w)) = session w /\
            query_params (snd (m w)) = query_params w.

(** Two worlds that differ at most in the [credentials] key. *)
Definition same_but_credentials (w1 w2 : world) : Prop :=
  user_info (session w1) = user_info (session w2) /\
  is_authenticated (session w1) = is_authenticated (session w2) /\
  query_params w1 = query_params w2 /\
  trace w1 = trace w2 /\
  drawn w1 = drawn w2.

(** A computation that never reads the [credentials] key. *)
Definition credentials_blind {A} (m : M A) : Prop :=
  forall w1 w2, same_but_credentials w1 w2 ->
    fst (m w1) = fst (m w2) /\ same_but_credentials (snd (m w1)) (snd (m w2)).

(** The world with another value under [credentials]. *)
Definition with_credentials (c : slot (option cred_dict)) (w : world) : world :=
  set_session {| user_info := user_info (session w);
                 is_authenticated := is_authenticated (session w);
                 credentials := c |} w.

(** Every character of a string passes a test. *)
Fixpoint all_chars (p : ascii -> bool) (s : string) : bool :=
  match s with
  | EmptyString => true
  | String c rest => p c && all_chars p rest
  end.

(** The characters an encoded value is made of. *)
Definition encoded_char (c : ascii) : bool :=
  always_safe c || Ascii.eqb c "+" || Ascii.eqb c "%".

(** The characters an encoded query is made of: those of the encoded
    values and the two separators. *)
Definition query_char (c : ascii) : bool :=
  encoded_char c || Ascii.eqb c "=" || Ascii.eqb c "&".

(** * The session before [main] *)



(** * Equations of the script's steps *)

Section Steps.

Variable environ : gmap string string.
Variable net : Provider.

Lemma first_code_present query code rest w :
  query !! "code" = Some (code :: rest) ->
  first_code query w = (Return (Some code), w).
Proof. intros H. unfold first_code. rewrite H. reflexivity. Qed.

Lemma already_authenticated_no w :
  Unauthenticated (session w) ->
  already_authenticated w = (Return false, w).
Proof.
  unfold Unauthenticated, already_authenticated, bind, read_is_authenticated.
  intros ->. reflexivity.
Qed.

Lemma already_authenticated_yes w v :
  Authenticated (session w) ->
  user_info (session w) = Present v ->
  already_authenticated w = (Return (truthy v), w).
Proof.
  unfold Authenticated, already_authenticated, bind, read_is_authenticated, read_user_info.
  intros -> ->. reflexivity.
Qed.

Lemma configured_check :
  configured environ ->
  negb (truthy_str (CLIENT_ID environ)) || negb (truthy_str (CLIENT_SECRET environ)) = false.
Proof. intros [-> ->]. reflexivity. Qed.

Lemma truthy_str_some code : code <> "" -> truthy_str (Some code) = true.
Proof.
  intros H. unfold truthy_str. destruct (String.eqb_spec code ""); [contradiction | reflexivity].
Qed.

(** With the configuration set, no session yet and a code in the
    request, [main] goes to the exchange. *)
Lemma main_enters_exchange w code :
  configured environ ->
  Unauthenticated (session w) ->
  carries_code w code ->
  code <> "" ->
  main environ net w =
  complete_authentication environ net code
    (log (UiSpinner "Completing authentication...")
       (log (UiTitle "Streamlit Google Authentication") w)).
Proof.
  intros Hcfg Hs [rest Hq] Hc.
  unfold main, bind at 1. unfold st_title, emit at 1.
  rewrite (configured_check Hcfg).
  unfold bind at 1. unfold st_experimental_get_query_params.
  cbn [query_params log].
  unfold bind at 1. erewrite first_code_present by exact Hq.
  unfold bind at 1. rewrite already_authenticated_no by exact Hs.
  rewrite truthy_str_some by exact Hc.
  unfold bind at 1. unfold st_spinner, emit. reflexivity.
Qed.

(** What [get_user_info] does, by the provider's answer. *)
Lemma get_user_info_eq credentials w :
  get_user_info net credentials w =
  let w1 := log (NetUserInfoGet userinfo_url ("Bearer " +:+ cr_token credentials)) w in
  match requests_get net userinfo_url ("Bearer " +:+ cr_token credentials) with
  | Threw e => (Raise e, w1)
  | Answered r =>
      if (status_code r =? 200)%Z then
        match json r with
        | Answered v => (Return v, w1)
        | Threw e => (Raise e, w1)
        end
      else (Return PNone, w1)
  end.
Proof.
  unfold get_user_info, requests_get_call, response_json, bind, emit, ret, raise, userinfo_url.
  cbn zeta.
  destruct (requests_get net _ _) as [r | e]; [| reflexivity].
  destruct (status_code r =? 200)%Z; [| reflexivity].
  destruct (json r); reflexivity.
Qed.

(** What the [try] block does, by the provider's answers. *)
Lemma complete_authentication_eq code w :
  complete_authentication environ net code w =
  let w1 := log (NetTokenExchange "https://oauth2.googleapis.com/token" code) w in
  match token_endpoint net (create_flow environ) code with
  | Threw e => (Return tt, log (UiError ("Authentication error: " +:+ exn_str e)) w1)
  | Answered t =>
      let w2 := log (NetUserInfoGet userinfo_url (bearer t)) w1 in
      match requests_get net userinfo_url (bearer t) with
      | Threw e => (Return tt, log (UiError ("Authentication error: " +:+ exn_str e)) w2)
      | Answered r =>
          if (status_code r =? 200)%Z then
            match json r with
            | Threw e => (Return tt, log (UiError ("Authentication error: " +:+ exn_str e)) w2)
            | Answered v =>
                if truthy v then (Rerun, authenticated_world environ t v w2)
                else (Return tt, log (UiError "Failed to get user information.") w2)
            end
          else (Return tt, log (UiError "Failed to get user information.") w2)
      end
  end.
Proof.
  unfold complete_authentication, try_except, bind at 1.
  unfold exchange_code_for_token, Flow_fetch_token, bind at 1 2.
  unfold emit at 1. cbn [token_uri create_flow].
  destruct (token_endpoint net _ code) as [t | e]; cbn zeta; [| reflexivity].
  unfold ret at 1 2. unfold bind at 1. rewrite get_user_info_eq. cbn zeta.
  cbn [cr_token Flow_credentials]. fold (bearer t).
  destruct (requests_get net _ _) as [r | e]; [| reflexivity].
  destruct (status_code r =? 200)%Z; [| reflexivity].
  destruct (json r) as [v | e]; [| reflexivity].
  destruct (truthy v); reflexivity.
Qed.

End Steps.

Ltac traces :=
  cbn [trace session query_params drawn log set_session set_query draw];
  rewrite <- ?app_assoc; cbn [app].

Create HintDb blind.
Create HintDb passive.

Lemma blind_ret {A} (a : A) : query_blind (ret a).
Proof. intros w1 w2 H. split; [reflexivity | exact H]. Qed.

Lemma blind_raise {A} e : query_blind (@raise A e).
Proof. intros w1 w2 H. split; [reflexivity | exact H]. Qed.

Lemma blind_rerun {A} : query_blind (@st_experimental_rerun A).
Proof. intros w1 w2 H. split; [reflexivity | exact H]. Qed.

Lemma blind_emit e : query_blind (emit e).
Proof.
  intros w1 w2 (Hs & Ht & Hd). unfold emit, same_but_query. cbn.
  rewrite Hs, Ht, Hd. repeat split.
Qed.

Lemma blind_bind {A B} (m : M A) (k : A -> M B) :
  query_blind m -> (forall a, query_blind (k a)) -> query_blind (bind m k).
Proof.
  intros Hm Hk w1 w2 H. unfold bind.
  destruct (Hm w1 w2 H) as [Ho Hw].
  destruct (m w1) as [[a1 | e1 |] u1], (m w2) as [[a2 | e2 |] u2];
    cbn in Ho, Hw; try discriminate.
  - injection Ho as ->. apply Hk, Hw.
  - injection Ho as ->. split; [reflexivity | exact Hw].
  - split; [reflexivity | exact Hw].
Qed.

Lemma blind_try_except {A} (m : M A) (h : exn -> M A) :
  query_blind m -> (forall e, query_blind (h e)) -> query_blind (try_except m h).
Proof.
  intros Hm Hh w1 w2 H. unfold try_except.
  destruct (Hm w1 w2 H) as [Ho Hw].
  destruct (m w1) as [[a1 | e1 |] u1], (m w2) as [[a2 | e2 |] u2];
    cbn in Ho, Hw; try discriminate.
  - split; [exact Ho | exact Hw].
  - injection Ho as ->. apply Hh, Hw.
  - split; [reflexivity | exact Hw].
Qed.

Lemma blind_read_user_info : query_blind read_user_info.
Proof.
  intros w1 w2 H. unfold read_user_info. destruct H as (Hs & Ht & Hd).
  rewrite Hs. destruct (user_info (session w2)); (split; [reflexivity | repeat split; assumption]).
Qed.

Lemma blind_read_is_authenticated : query_blind read_is_authenticated.
Proof.
  intros w1 w2 H. unfold read_is_authenticated. destruct H as (Hs & Ht & Hd).
  rewrite Hs. destruct (is_authenticated (session w2)); (split; [reflexivity | repeat split; assumption]).
Qed.

Lemma blind_write_user_info v : query_blind (write_user_info v).
Proof.
  intros w1 w2 (Hs & Ht & Hd). unfold write_user_info, same_but_query. cbn.
  rewrite Hs, Ht, Hd. repeat split.
Qed.

Lemma blind_write_is_authenticated b : query_blind (write_is_authenticated b).
Proof.
  intros w1 w2 (Hs & Ht & Hd). unfold write_is_authenticated, same_but_query. cbn.
  rewrite Hs, Ht, Hd. repeat split.
Qed.

Lemma blind_write_credentials c : query_blind (write_credentials c).
Proof.
  intros w1 w2 (Hs & Ht & Hd). unfold write_credentials, same_but_query. cbn.
  rewrite Hs, Ht, Hd. repeat split.
Qed.

Lemma blind_set_query_params : query_blind st_experimental_set_query_params.
Proof.
  intros w1 w2 (Hs & Ht & Hd). unfold st_experimental_set_query_params, same_but_query. cbn.
  repeat split; assumption.
Qed.

Lemma blind_authorization_url net flow kwargs :
  query_blind (Flow_authorization_url net flow kwargs).
Proof.
  intros w1 w2 (Hs & Ht & Hd). unfold Flow_authorization_url, same_but_query. cbn.
  rewrite Hd. repeat split; assumption.
Qed.

#[local] Hint Resolve blind_ret blind_raise blind_rerun blind_emit blind_bind
  blind_try_except blind_read_user_info blind_read_is_authenticated
  blind_write_user_info blind_write_is_authenticated blind_write_credentials
  blind_set_query_params blind_authorization_url : blind.

Ltac blind :=
  unfold st_title, st_error, st_info, st_write, st_markdown, st_spinner, response_json;
  repeat first
    [ progress intros
    | solve [auto with blind]
    | apply blind_bind | apply blind_try_except
    | match goal with
      | |- query_blind (if ?b then _ else _) => destruct b
      | |- query_blind (match ?x with _ => _ end) => destruct x
      end ].

Section Blind.
Variable environ : gmap string string.
Variable net : Provider.

Lemma blind_get_authorization_url : query_blind (get_authorization_url environ net).
Proof. unfold get_authorization_url. blind. Qed.

Lemma blind_show_login : query_blind (show_login environ net).
Proof.
  unfold show_login, st_write, st_markdown. pose proof blind_get_authorization_url. blind.
Qed.

Lemma blind_display_user_info : query_blind display_user_info.
Proof. unfold display_user_info, st_error. blind. Qed.

Lemma blind_already_authenticated : query_blind already_authenticated.
Proof. unfold already_authenticated. blind. Qed.

Lemma blind_complete_authentication code :
  query_blind (complete_authentication environ net code).
Proof.
  unfold complete_authentication, exchange_code_for_token, get_user_info,
    Flow_fetch_token, requests_get_call, response_json, st_error.
  blind.
Qed.

Lemma blind_after_code code : query_blind (after_code environ net code).
Proof.
  unfold after_code, st_write, st_spinner.
  pose proof blind_already_authenticated. pose proof blind_display_user_info.
  pose proof blind_show_login. pose proof blind_complete_authentication.
  blind.
Qed.
End Blind.

Lemma passive_ret {A} (a : A) : passive (ret a).
Proof. intros w. split; [reflexivity |]. exists []. split; [symmetry; apply app_nil_r | constructor]. Qed.

Lemma passive_raise {A} e : passive (@raise A e).
Proof. intros w. split; [reflexivity |]. exists []. split; [symmetry; apply app_nil_r | constructor]. Qed.

Lemma passive_emit e : local_event e -> passive (emit e).
Proof.
  intros He w. split; [reflexivity |]. exists [e]. split; [reflexivity |].
  constructor; [exact He | constructor].
Qed.

Lemma passive_bind {A B} (m : M A) (k : A -> M B) :
  passive m -> (forall a, passive (k a)) -> passive (bind m k).
Proof.
  intros Hm Hk w. unfold bind.
  destruct (Hm w) as (Hs & d & Hd & Hl).
  destruct (m w) as [[a | e |] u]; cbn [snd] in *.
  - destruct (Hk a u) as (Hs' & d' & Hd' & Hl').
    split; [congruence |]. exists (d ++ d'). split.
    + unfold events_since in *. rewrite Hd', Hd. symmetry. apply app_assoc.
    + apply Forall_app. split; assumption.
  - split; [exact Hs |]. exists d. split; assumption.
  - split; [exact Hs |]. exists d. split; assumption.
Qed.

Lemma passive_read_user_info : passive read_user_info.
Proof.
  intros w. unfold read_user_info. destruct (user_info (session w));
    (split; [reflexivity |]; exists []; split; [symmetry; apply app_nil_r | constructor]).
Qed.

Lemma passive_read_is_authenticated : passive read_is_authenticated.
Proof.
  intros w. unfold read_is_authenticated. destruct (is_authenticated (session w));
    (split; [reflexivity |]; exists []; split; [symmetry; apply app_nil_r | constructor]).
Qed.

Lemma passive_authorization_url net flow kwargs :
  passive (Flow_authorization_url net flow kwargs).
Proof.
  intros w. split; [reflexivity |]. exists []. split; [symmetry; apply app_nil_r | constructor].
Qed.

#[local] Hint Resolve passive_ret passive_raise passive_bind passive_read_user_info
  passive_read_is_authenticated passive_authorization_url : passive.
#[local] Hint Extern 1 (passive (emit _)) =>
  (apply passive_emit; split; reflexivity) : passive.

Ltac passive :=
  unfold st_title, st_error, st_info, st_write, st_markdown, st_spinner;
  repeat first
    [ progress intros
    | solve [auto with passive]
    | apply passive_bind
    | match goal with
      | |- passive (if ?b then _ else _) => destruct b
      | |- passive (match ?x with _ => _ end) => destruct x
      end ].

Section Passive.
Variable environ : gmap string string.
Variable net : Provider.

Lemma passive_show_login : passive (show_login environ net).
Proof. unfold show_login, get_authorization_url. passive. Qed.

Lemma passive_display_user_info : passive display_user_info.
Proof. unfold display_user_info. passive. Qed.

Lemma passive_already_authenticated : passive already_authenticated.
Proof. unfold already_authenticated. passive. Qed.

(** Without a usable code [main]'s branching stays local. *)
Lemma passive_after_code code :
  truthy_str code = false -> passive (after_code environ net code).
Proof.
  intros H. unfold after_code. rewrite H.
  pose proof passive_show_login. pose proof passive_display_user_info.
  pose proof passive_already_authenticated.
  passive.
Qed.

Lemma main_eq w :
  main environ net w =
  let w0 := log (UiTitle "Streamlit Google Authentication") w in
  if negb (truthy_str (CLIENT_ID environ)) || negb (truthy_str (CLIENT_SECRET environ)) then
    (Return tt,
     log (UiInfo "For local development, you can use: export GOOGLE_CLIENT_ID=your_client_id export GOOGLE_CLIENT_SECRET=your_client_secret export REDIRECT_URI=your_redirect_uri")
       (log (UiError "Google OAuth credentials are not set. Please set the GOOGLE_CLIENT_ID and GOOGLE_CLIENT_SECRET environment variables.") w0))
  else
    match query_params w !! "code" with
    | None => after_code environ net None w0
    | Some (c :: _) => after_code environ net (Some c) w0
    | Some [] => (Raise (Exn "IndexError" "list index out of range"), w0)
    end.
Proof.
  unfold main, bind at 1. unfold st_title, emit at 1. cbn zeta.
  destruct (negb _ || negb _); [reflexivity |].
  unfold bind at 1. unfold st_experimental_get_query_params. cbn [query_params log].
  unfold bind at 1. unfold first_code.
  destruct (query_params w !! "code") as [[| c rest] |]; reflexivity.
Qed.
End Passive.

Section Cases.
Variable environ : gmap string string.
Variable net : Provider.

Lemma already_authenticated_world w :
  snd (already_authenticated w) = w.
Proof.
  unfold already_authenticated, bind, read_is_authenticated, read_user_info.
  destruct (is_authenticated (session w)) as [| [|]]; try reflexivity.
  destruct (user_info (session w)); reflexivity.
Qed.

Lemma already_authenticated_session w1 w2 :
  session w1 = session w2 ->
  fst (already_authenticated w1) = fst (already_authenticated w2).
Proof.
  destruct w1 as [s1 q1 t1 d1], w2 as [s2 q2 t2 d2]. cbn [session]. intros ->.
  unfold already_authenticated, bind, read_is_authenticated, read_user_info.
  cbn [session].
  destruct (is_authenticated s2) as [| [|]]; cbn [session]; try reflexivity.
  destruct (user_info s2); reflexivity.
Qed.

Lemma configured_iff :
  negb (truthy_str (CLIENT_ID environ)) || negb (truthy_str (CLIENT_SECRET environ)) = false <->
  configured environ.
Proof.
  unfold configured.
  destruct (truthy_str (CLIENT_ID environ)), (truthy_str (CLIENT_SECRET environ));
    cbn; intuition congruence.
Qed.

Lemma truthy_str_code code : truthy_str (Some code) = true -> code <> "".
Proof. intros H ->. discriminate H. Qed.

(** A run of [main] either leaves the session as it found it, or it
    went through a successful exchange and fetch and stored their
    results. *)
Lemma main_session_cases w :
  session (snd (main environ net w)) = session w \/
  exists code t profile,
    configured environ /\
    fst (already_authenticated w) = Return false /\
    exchange_and_fetch_succeed environ net w code t profile /\
    session (snd (main environ net w)) =
      {| user_info := Present profile;
         is_authenticated := Present true;
         credentials := Present (Some (stored_credentials environ t)) |}.
Proof.
  remember (main environ net w) as res eqn:Hres.
  rewrite main_eq in Hres. cbn zeta in Hres.
  destruct (negb _ || negb _) eqn:Hcfg; [left; subst res; reflexivity |].
  apply configured_iff in Hcfg.
  set (w0 := log (UiTitle "Streamlit Google Authentication") w) in Hres.
  assert (Hpassive : forall code, truthy_str code = false ->
            session (snd (after_code environ net code w0)) = session w).
  { intros code Hc. apply (passive_after_code environ net code Hc w0). }
  destruct (query_params w !! "code") as [[| c rest] |] eqn:Hq.
  - left. subst res. reflexivity.
  - destruct (truthy_str (Some c)) eqn:Hc; [| left; subst res; apply Hpassive, Hc].
    unfold after_code, bind at 1 in Hres.
    pose proof (already_authenticated_world w0) as Hw.
    assert (Ha : fst (already_authenticated w0) = fst (already_authenticated w)).
    { apply already_authenticated_session. reflexivity. }
    destruct (already_authenticated w0) as [[[|] | e |] u] eqn:Hau;
      cbn [fst snd] in Hw, Ha; subst u.
    + left. subst res.
      refine (proj1 (passive_bind _ _ passive_display_user_info _ w0)).
      passive.
    + rewrite Hc in Hres. unfold bind at 1 in Hres.
      unfold st_spinner, emit at 1 in Hres.
      change (default "" (Some c)) with c in Hres.
      rewrite complete_authentication_eq in Hres. cbn zeta in Hres.
      destruct (token_endpoint net (create_flow environ) c) as [t | e] eqn:Ht;
        [| left; subst res; reflexivity].
      destruct (requests_get net userinfo_url (bearer t)) as [r | e] eqn:Hr;
        [| left; subst res; reflexivity].
      destruct (status_code r =? 200)%Z eqn:Hst; [| left; subst res; reflexivity].
      destruct (json r) as [v | e] eqn:Hj; [| left; subst res; reflexivity].
      destruct (truthy v) eqn:Hv; [| left; subst res; reflexivity].
      right. exists c, t, v. subst res.
      split; [exact Hcfg |]. split; [symmetry; exact Ha |].
      split; [| reflexivity].
      split; [exists rest; exact Hq |].
      split; [apply truthy_str_code, Hc |].
      split; [exact Ht |].
      exists r. apply Z.eqb_eq in Hst. auto.
    + left. subst res. reflexivity.
    + left. subst res. reflexivity.
  - left. subst res. apply Hpassive. reflexivity.
Qed.
End Cases.

Section Outcomes.
Variable environ : gmap string string.
Variable net : Provider.

(** The run of [main] on a successful exchange and fetch. *)
Lemma main_success_eq w code t profile :
  configured environ ->
  Unauthenticated (session w) ->
  exchange_and_fetch_succeed environ net w code t profile ->
  main environ net w =
  (Rerun,
   authenticated_world environ t profile
     (log (NetUserInfoGet userinfo_url (bearer t))
        (log (NetTokenExchange "https://oauth2.googleapis.com/token" code)
           (log (UiSpinner "Completing authentication...")
              (log (UiTitle "Streamlit Google Authentication") w))))).
Proof.
  intros Hcfg Hs (Hq & Hc & Ht & r & Hr & Hst & Hj & Hp).
  rewrite (main_enters_exchange environ net w code Hcfg Hs Hq Hc),
    complete_authentication_eq.
  cbn zeta. rewrite Ht, Hr, Hst, Hj, Hp. reflexivity.
Qed.

(** The run of [main] when the exchange raises. *)
Lemma main_exchange_raises_eq w code e :
  configured environ ->
  Unauthenticated (session w) ->
  carries_code w code -> code <> "" ->
  token_endpoint net (create_flow environ) code = Threw e ->
  main environ net w =
  (Return tt,
   log (UiError ("Authentication error: " +:+ exn_str e))
     (log (NetTokenExchange "https://oauth2.googleapis.com/token" code)
        (log (UiSpinner "Completing authentication...")
           (log (UiTitle "Streamlit Google Authentication") w)))).
Proof.
  intros Hcfg Hs Hq Hc Ht.
  rewrite (main_enters_exchange environ net w code Hcfg Hs Hq Hc),
    complete_authentication_eq.
  cbn zeta. rewrite Ht. reflexivity.
Qed.

(** The run of [main] when the exchange answers and the fetch does
    not give a profile: one error message, whose text depends on how
    the fetch failed. *)
Lemma main_fetch_fails_eq w code t :
  configured environ ->
  Unauthenticated (session w) ->
  carries_code w code -> code <> "" ->
  token_endpoint net (create_flow environ) code = Answered t ->
  profile_fetch_fails net t ->
  exists message,
    main environ net w =
    (Return tt,
     log (UiError message)
       (log (NetUserInfoGet userinfo_url (bearer t))
          (log (NetTokenExchange "https://oauth2.googleapis.com/token" code)
             (log (UiSpinner "Completing authentication...")
                (log (UiTitle "Streamlit Google Authentication") w))))).
Proof.
  intros Hcfg Hs Hq Hc Ht Hf.
  rewrite (main_enters_exchange environ net w code Hcfg Hs Hq Hc),
    complete_authentication_eq.
  cbn zeta. rewrite Ht.
  destruct Hf as [e Hr | r Hr Hst | r e Hr Hst Hj | r v Hr Hst Hj Hv]; rewrite Hr.
  - eexists. reflexivity.
  - apply Z.eqb_neq in Hst. rewrite Hst. eexists. reflexivity.
  - rewrite Hst, Hj. eexists. reflexivity.
  - rewrite Hst, Hj, Hv. eexists. reflexivity.
Qed.
End Outcomes.

Lemma reachable_invariant environ s :
  reachable environ s -> session_invariant s.
Proof.
  induction 1 as [| net w Hr IH | w Hr IH].
  - split; [right; reflexivity |]. split; [exists PNone; reflexivity |].
    intros H. discriminate H.
  - destruct (main_session_cases environ net w) as [-> | (code & t & profile & _ & _ & Hok & ->)];
      [exact IH |].
    destruct Hok as (_ & _ & _ & r & _ & _ & _ & Hp).
    split; [left; reflexivity |]. split; [exists profile; reflexivity |].
    intros _. exists profile, (stored_credentials environ t). auto.
  - split; [right; reflexivity |]. split; [exists PNone; reflexivity |].
    intros H. discriminate H.
Qed.

Lemma string_app_assoc (a b c : string) : (a +:+ b) +:+ c = a +:+ (b +:+ c).
Proof.
  induction a as [| x a IH]; [reflexivity |].
  change (String x ((a +:+ b) +:+ c) = String x (a +:+ (b +:+ c))). now rewrite IH.
Qed.

Lemma string_app_nil_r (a : string) : a +:+ "" = a.
Proof.
  induction a as [| x a IH]; [reflexivity |].
  change (String x (a +:+ "") = String x a). now rewrite IH.
Qed.

(** Every pair of the parameter list shows up in the encoded query,
    key and value percent-encoded. *)
Lemma urlencode_component params k v :
  In (k, v) params ->
  exists pre post,
    urlencode params = pre +:+ (quote_plus k +:+ "=" +:+ quote_plus v) +:+ post.
Proof.
  unfold urlencode.
  induction params as [| p rest IH]; [intros [] |].
  intros [-> | Hin].
  - exists "". destruct rest as [| p' rest'].
    + exists "". cbn [map String.concat]. unfold encode_pair. cbn [fst snd].
      now rewrite string_app_nil_r.
    + eexists. cbn [map String.concat]. unfold encode_pair at 1. cbn [fst snd].
      reflexivity.
  - destruct (IH Hin) as (pre & post & Heq).
    destruct rest as [| p' rest']; [destruct Hin |].
    exists (encode_pair p +:+ "&" +:+ pre), post.
    change (String.concat "&" (map encode_pair (p :: p' :: rest')))
      with (encode_pair p +:+ "&" +:+ String.concat "&" (map encode_pair (p' :: rest'))).
    rewrite Heq. now rewrite !string_app_assoc.
Qed.

Lemma get_authorization_url_eq environ net w :
  get_authorization_url environ net w =
  (Return ("https://accounts.google.com/o/oauth2/auth" +:+ "?" +:+
           urlencode (grant_params (create_flow environ)
                        (generate_token net (drawn w)) authorization_kwargs)),
   draw w).
Proof. reflexivity. Qed.

Lemma observe_same {A} (r1 r2 : outcome A * world) :
  fst r1 = fst r2 -> same_but_query (snd r1) (snd r2) -> observe r1 = observe r2.
Proof.
  intros Ho (Hs & Ht & Hd). unfold observe. now rewrite Ho, Hs, Ht, Hd.
Qed.

Lemma local_events_no_network delta :
  Forall local_event delta -> List.filter is_network delta = [].
Proof.
  induction 1 as [| e l [Hn _] _ IH]; [reflexivity |].
  cbn [List.filter]. now rewrite Hn.
Qed.

Section Query.
Variable environ : gmap string string.
Variable net : Provider.

Lemma after_code_empty w :
  after_code environ net (Some "") w = after_code environ net None w.
Proof. reflexivity. Qed.

(** [main] reads nothing of the query string but the [code] parameter. *)
Lemma main_reads_code_only w1 w2 :
  same_but_query w1 w2 ->
  query_params w1 !! "code" = query_params w2 !! "code" ->
  observe (main environ net w1) = observe (main environ net w2).
Proof.
  intros Hsame Hcode. rewrite !main_eq. cbn zeta. rewrite Hcode.
  assert (H0 : same_but_query (log (UiTitle "Streamlit Google Authentication") w1)
                 (log (UiTitle "Streamlit Google Authentication") w2)).
  { apply (blind_emit (UiTitle "Streamlit Google Authentication") w1 w2 Hsame). }
  destruct (negb _ || negb _).
  - apply observe_same; [reflexivity |].
    apply (blind_emit (UiInfo _) _ _ (proj2 (blind_emit (UiError _) _ _ H0))).
  - destruct (query_params w2 !! "code") as [[| c rest] |].
    + apply observe_same; [reflexivity | exact H0].
    + apply observe_same; apply (blind_after_code environ net (Some c) _ _ H0).
    + apply observe_same; apply (blind_after_code environ net None _ _ H0).
Qed.

(** An empty first code and a missing code give the same run. *)
Lemma main_empty_code w1 w2 rest :
  same_but_query w1 w2 ->
  query_params w1 !! "code" = Some ("" :: rest) ->
  query_params w2 !! "code" = None ->
  observe (main environ net w1) = observe (main environ net w2).
Proof.
  intros Hsame H1 H2. rewrite !main_eq. cbn zeta. rewrite H1, H2.
  assert (H0 : same_but_query (log (UiTitle "Streamlit Google Authentication") w1)
                 (log (UiTitle "Streamlit Google Authentication") w2)).
  { apply (blind_emit (UiTitle "Streamlit Google Authentication") w1 w2 Hsame). }
  destruct (negb _ || negb _).
  - apply observe_same; [reflexivity |].
    apply (blind_emit (UiInfo _) _ _ (proj2 (blind_emit (UiError _) _ _ H0))).
  - rewrite after_code_empty.
    apply observe_same; apply (blind_after_code environ net None _ _ H0).
Qed.

(** With an empty first code [main] stays local. *)
Lemma main_empty_code_passive w rest :
  query_params w !! "code" = Some ("" :: rest) ->
  session (snd (main environ net w)) = session w /\
  exists delta,
    events_since w (snd (main environ net w)) delta /\ Forall local_event delta.
Proof.
  intros Hq. rewrite main_eq. cbn zeta. rewrite Hq.
  destruct (negb _ || negb _).
  - split; [reflexivity |]. eexists.
    split; [unfold events_since; cbn [snd]; traces; reflexivity |].
    repeat constructor.
  - destruct (passive_after_code environ net (Some "") eq_refl
                (log (UiTitle "Streamlit Google Authentication") w))
      as (Hs & delta & Hd & Hl).
    split; [exact Hs |].
    exists (UiTitle "Streamlit Google Authentication" :: delta). split.
    + unfold events_since in *. rewrite Hd. traces. reflexivity.
    + constructor; [split; reflexivity | exact Hl].
Qed.

(** With the configuration set, no session and no usable code,
    [main] shows the sign-in prompt. *)
Lemma main_shows_login w code :
  configured environ ->
  Unauthenticated (session w) ->
  query_params w !! "code" = code ->
  code = None \/ (exists rest, code = Some ("" :: rest)) ->
  main environ net w =
  show_login environ net (log (UiTitle "Streamlit Google Authentication") w).
Proof.
  intros Hcfg Hs Hq Hcode. rewrite main_eq. cbn zeta.
  rewrite (configured_check environ Hcfg), Hq.
  assert (Hafter : after_code environ net None
                     (log (UiTitle "Streamlit Google Authentication") w) =
                   show_login environ net
                     (log (UiTitle "Streamlit Google Authentication") w)).
  { unfold after_code, bind at 1.
    rewrite already_authenticated_no by exact Hs. reflexivity. }
  destruct Hcode as [-> | [rest ->]]; [exact Hafter |].
  rewrite after_code_empty. exact Hafter.
Qed.
End Query.

(** * Sample runs *)

Example quote_plus_sample :
  quote_plus "https://your-app-name.streamlit.app/a b~c" =
  "https%3A%2F%2Fyour-app-name.streamlit.app%2Fa+b~c".
Proof. reflexivity. Qed.

(** A signed-in session is shown its profile and stays as it is. *)
Example main_signed_in :
  observe (main Sample.environ (Sample.provider (Sample.ok Sample.ada))
             (Sample.request Sample.signed_in Sample.callback)) =
  (Return tt, Sample.signed_in,
   [UiTitle "Streamlit Google Authentication";
    UiWelcome (PStr "Ada");
    UiEmail (PStr "a@x.com");
    UiGoogleId (PStr "42");
    UiSignOutButton;
    UiWrite "## Your Application Content";
    UiWrite "This is the protected area of your application."],
   0).
Proof. vm_compute. reflexivity. Qed.

(** A rejected code leaves one error message and no session. *)
Example main_rejected_code :
  observe (main Sample.environ Sample.rejecting
             (Sample.request initial_session Sample.callback)) =
  (Return tt, initial_session,
   [UiTitle "Streamlit Google Authentication";
    UiSpinner "Completing authentication...";
    NetTokenExchange "https://oauth2.googleapis.com/token" "abc";
    UiError "Authentication error: (invalid_grant) Bad Request"],
   0).
Proof. vm_compute. reflexivity. Qed.

(** An empty list under [code] makes line 116 raise. *)
Example main_code_without_value :
  fst (main Sample.environ Sample.rejecting
         (Sample.request initial_session (<["code" := []]> ∅))) =
  Raise (Exn "IndexError" "list index out of range").
Proof. vm_compute. reflexivity. Qed.

(** * The claims *)

(** Claim C1.  When the configuration is set, the session is
    unauthenticated, the request carries a non-empty code, the token
    exchange answers [t] and the profile fetch answers 200 with the
    profile [profile] (a value [main] accepts on line 133, as every
    profile with an [id] is), [main] ends in the rerun signal with the
    session authenticated: [user_info] is exactly [profile], the stored
    credentials carry the access and refresh token of [t], the query
    string is cleared, and the run logs one exchange, one fetch and a
    single switch of [is_authenticated] to [True]. *)
Theorem main_completes_authentication environ net w code t profile :
  configured environ ->
  Unauthenticated (session w) ->
  exchange_and_fetch_succeed environ net w code t profile ->
  let w' := snd (main environ net w) in
  fst (main environ net w) = Rerun /\
  session w' =
    {| user_info := Present profile;
       is_authenticated := Present true;
       credentials := Present (Some (stored_credentials environ t)) |} /\
  Authenticated (session w') /\
  cd_token (stored_credentials environ t) = access_token t /\
  cd_refresh_token (stored_credentials environ t) = refresh_token t /\
  query_params w' = ∅ /\
  events_since w w'
    [UiTitle "Streamlit Google Authentication";
     UiSpinner "Completing authentication...";
     NetTokenExchange "https://oauth2.googleapis.com/token" code;
     NetUserInfoGet userinfo_url (bearer t);
     SetUserInfo profile;
     SetIsAuthenticated true;
     SetCredentials (Some (stored_credentials environ t))] /\
  length (List.filter is_authentication
    [UiTitle "Streamlit Google Authentication";
     UiSpinner "Completing authentication...";
     NetTokenExchange "https://oauth2.googleapis.com/token" code;
     NetUserInfoGet userinfo_url (bearer t);
     SetUserInfo profile;
     SetIsAuthenticated true;
     SetCredentials (Some (stored_credentials environ t))]) = 1.
Proof.
  intros Hcfg Hs Hok w'. subst w'.
  rewrite (main_success_eq environ net w code t profile Hcfg Hs Hok).
  cbn [fst snd]. repeat split.
  unfold events_since, authenticated_world. traces. reflexivity.
Qed.

Lemma main_completes_authentication_ada :
  let w := Sample.request initial_session Sample.callback in
  let w' := snd (main Sample.environ (Sample.provider (Sample.ok Sample.ada)) w) in
  fst (main Sample.environ (Sample.provider (Sample.ok Sample.ada)) w) = Rerun /\
  session w' =
    {| user_info :=
         Present (PDict [("id", PStr "42"); ("name", PStr "Ada"); ("email", PStr "a@x.com")]);
       is_authenticated := Present true;
       credentials :=
         Present (Some {| cd_token := "tok123";
                          cd_refresh_token := Some "ref456";
                          cd_token_uri := "https://oauth2.googleapis.com/token";
                          cd_client_id := Some "client-1";
                          cd_client_secret := Some "s3cret";
                          cd_scopes := SCOPES |}) |}.
Proof.
  cbv zeta.
  assert (Hcfg : configured Sample.environ) by (split; reflexivity).
  assert (Hs : Unauthenticated
                 (session (Sample.request initial_session Sample.callback)))
    by reflexivity.
  assert (Hok : exchange_and_fetch_succeed Sample.environ
                  (Sample.provider (Sample.ok Sample.ada))
                  (Sample.request initial_session Sample.callback)
                  "abc" Sample.tokens Sample.ada).
  { split; [exists []; reflexivity |]. split; [discriminate |].
    split; [reflexivity |].
    exists {| status_code := 200; json := Answered Sample.ada |}.
    repeat split. }
  destruct (main_completes_authentication Sample.environ
              (Sample.provider (Sample.ok Sample.ada))
              (Sample.request initial_session Sample.callback)
              "abc" Sample.tokens Sample.ada Hcfg Hs Hok) as (H1 & H2 & _).
  split; [exact H1 | exact H2].
Defined.

(** Claim C2.  On a request carrying a non-empty code, if the token
    exchange raises, or it answers and the profile fetch fails, [main]
    returns normally, the session is the one it started with, still
    unauthenticated, no assignment to a session key was made, and when
    the exchange raised no profile request was sent. *)
Theorem main_failure_leaves_session environ net w code :
  configured environ ->
  Unauthenticated (session w) ->
  carries_code w code -> code <> "" ->
  exchange_fails environ net code \/
  (exists t, token_endpoint net (create_flow environ) code = Answered t /\
             profile_fetch_fails net t) ->
  let w' := snd (main environ net w) in
  fst (main environ net w) = Return tt /\
  session w' = session w /\
  Unauthenticated (session w') /\
  exists delta,
    events_since w w' delta /\
    List.filter is_session_write delta = [] /\
    (exchange_fails environ net code -> List.filter is_user_info_get delta = []).
Proof.
  intros Hcfg Hs Hq Hc [[e Ht] | (t & Ht & Hf)] w'; subst w'.
  - rewrite (main_exchange_raises_eq environ net w code e Hcfg Hs Hq Hc Ht).
    cbn [fst snd]. split; [reflexivity |]. split; [reflexivity |]. split; [exact Hs |].
    eexists. split; [unfold events_since; traces; reflexivity |].
    split; [reflexivity |]. intros _. reflexivity.
  - destruct (main_fetch_fails_eq environ net w code t Hcfg Hs Hq Hc Ht Hf) as [msg ->].
    cbn [fst snd]. split; [reflexivity |]. split; [reflexivity |]. split; [exact Hs |].
    eexists. split; [unfold events_since; traces; reflexivity |].
    split; [reflexivity |]. intros [e He]. rewrite Ht in He. discriminate He.
Qed.

Lemma main_failure_leaves_session_rejected :
  let w := Sample.request initial_session Sample.callback in
  let w' := snd (main Sample.environ Sample.rejecting w) in
  fst (main Sample.environ Sample.rejecting w) = Return tt /\
  session w' = session w /\
  Unauthenticated (session w') /\
  exists delta,
    events_since w w' delta /\
    List.filter is_session_write delta = [] /\
    (exchange_fails Sample.environ Sample.rejecting "abc" -> List.filter is_user_info_get delta = []).
Proof.
  apply (main_failure_leaves_session Sample.environ Sample.rejecting
           (Sample.request initial_session Sample.callback) "abc").
  - split; reflexivity.
  - reflexivity.
  - exists []. reflexivity.
  - discriminate.
  - left. eexists. reflexivity.
Defined.

(** Claim C3.  Every session reachable from the initial one by runs of
    [main] and sign-outs is authenticated or unauthenticated, and when
    authenticated it holds a non-empty profile and a credentials
    dictionary.  A run of [main] takes an unauthenticated session to an
    authenticated one only through an exchange and a fetch that both
    succeeded, in that order; a sign-out always ends unauthenticated;
    and [main] leaves an authenticated session as it is, so only a
    sign-out leads back. *)
Theorem reachable_session_transitions environ s :
  reachable environ s ->
  (Authenticated s \/ Unauthenticated s) /\
  (Authenticated s ->
   exists profile c,
     user_info s = Present profile /\ truthy profile = true /\
     credentials s = Present (Some c)) /\
  (forall net w,
     session w = s -> Unauthenticated s ->
     Authenticated (session (snd (main environ net w))) ->
     exists code t profile,
       exchange_and_fetch_succeed environ net w code t profile /\
       user_info (session (snd (main environ net w))) = Present profile /\
       exists delta,
         events_since w (snd (main environ net w)) delta /\
         List.filter is_network delta =
           [NetTokenExchange "https://oauth2.googleapis.com/token" code;
            NetUserInfoGet userinfo_url (bearer t)]) /\
  (forall w, session w = s -> Unauthenticated (session (snd (sign_out w)))) /\
  (forall net w,
     session w = s -> Authenticated s ->
     session (snd (main environ net w)) = s).
Proof.
  intros Hreach. destruct (reachable_invariant environ s Hreach) as (Hflag & Hinfo & Hauth).
  split; [exact Hflag |]. split; [exact Hauth |]. split; [| split].
  - intros net w Hw Hun Hafter. subst s.
    destruct (main_session_cases environ net w)
      as [Hsame | (code & t & profile & Hcfg & _ & Hok & Hsess)].
    + rewrite Hsame in Hafter. unfold Authenticated, Unauthenticated in *. congruence.
    + exists code, t, profile. split; [exact Hok |].
      rewrite (main_success_eq environ net w code t profile Hcfg Hun Hok).
      cbn [snd]. split; [reflexivity |].
      eexists. split; [unfold events_since, authenticated_world; traces; reflexivity |].
      reflexivity.
  - intros w _. reflexivity.
  - intros net w Hw Hau. subst s.
    destruct (main_session_cases environ net w)
      as [Hsame | (code & t & profile & _ & Hno & _ & _)]; [exact Hsame |].
    destruct (Hauth Hau) as (profile' & c & Hu & Hp & _).
    rewrite (already_authenticated_yes w profile' Hau Hu), Hp in Hno. discriminate Hno.
Qed.

Lemma reachable_session_transitions_first_sign_in :
  let w := Sample.request initial_session Sample.callback in
  let net := Sample.provider (Sample.ok Sample.ada) in
  reachable Sample.environ initial_session /\
  exists code t profile,
    exchange_and_fetch_succeed Sample.environ net w code t profile /\
    user_info (session (snd (main Sample.environ net w))) = Present profile /\
    exists delta,
      events_since w (snd (main Sample.environ net w)) delta /\
      List.filter is_network delta =
        [NetTokenExchange "https://oauth2.googleapis.com/token" code;
         NetUserInfoGet userinfo_url (bearer t)].
Proof.
  cbv zeta. split; [apply reach_initial |].
  destruct (reachable_session_transitions Sample.environ initial_session
              (reach_initial Sample.environ)) as (_ & _ & H & _).
  apply H; reflexivity.
Defined.

(** Claim C4 fails as stated: on a 200 answer whose body does not
    parse, [get_user_info] does not return a failure value, the
    decoding error is raised out of it. *)
Lemma get_user_info_malformed_raises :
  let net := Sample.provider Sample.malformed in
  let credentials := Flow_credentials (create_flow Sample.environ) Sample.tokens in
  let w := Sample.request initial_session Sample.callback in
  requests_get net userinfo_url ("Bearer " +:+ cr_token credentials) = Sample.malformed /\
  fst (get_user_info net credentials w) =
    Raise (Exn "JSONDecodeError" "Expecting value: line 1 column 1 (char 0)") /\
  ~ exists v, fst (get_user_info net credentials w) = Return v.
Proof.
  cbv zeta. split; [reflexivity |]. split; [reflexivity |].
  intros [v Hv]. discriminate Hv.
Qed.

(** Claim C4, amended.  When the provider answers the profile request,
    [get_user_info] returns the parsed body on a 200 whose body parses
    and returns [None] on any other status; on a 200 whose body does
    not parse the decoding error is raised out of [get_user_info], and
    it is [main] that catches it: [main] returns after reporting an
    authentication error and leaves the session untouched. *)
Theorem get_user_info_outcomes net credentials w r :
  requests_get net userinfo_url ("Bearer " +:+ cr_token credentials) = Answered r ->
  (forall v, status_code r = 200%Z -> json r = Answered v ->
     fst (get_user_info net credentials w) = Return v) /\
  (status_code r <> 200%Z ->
     fst (get_user_info net credentials w) = Return PNone) /\
  (forall e, status_code r = 200%Z -> json r = Threw e ->
     fst (get_user_info net credentials w) = Raise e /\
     forall environ w0 code t,
       configured environ ->
       Unauthenticated (session w0) ->
       carries_code w0 code -> code <> "" ->
       token_endpoint net (create_flow environ) code = Answered t ->
       access_token t = cr_token credentials ->
       fst (main environ net w0) = Return tt /\
       session (snd (main environ net w0)) = session w0 /\
       events_since w0 (snd (main environ net w0))
         [UiTitle "Streamlit Google Authentication";
          UiSpinner "Completing authentication...";
          NetTokenExchange "https://oauth2.googleapis.com/token" code;
          NetUserInfoGet userinfo_url (bearer t);
          UiError ("Authentication error: " +:+ exn_str e)]).
Proof.
  intros Hr. split; [| split].
  - intros v Hst Hj. rewrite get_user_info_eq. cbn zeta. rewrite Hr, Hst, Hj. reflexivity.
  - intros Hst. apply Z.eqb_neq in Hst.
    rewrite get_user_info_eq. cbn zeta. rewrite Hr, Hst. reflexivity.
  - intros e Hst Hj. split.
    + rewrite get_user_info_eq. cbn zeta. rewrite Hr, Hst, Hj. reflexivity.
    + intros environ w0 code t Hcfg Hs Hq Hc Ht Htok.
      rewrite (main_enters_exchange environ net w0 code Hcfg Hs Hq Hc),
        complete_authentication_eq.
      assert (Hr' : requests_get net userinfo_url (bearer t) = Answered r)
        by (unfold bearer; rewrite Htok; exact Hr).
      cbn zeta. rewrite Ht, Hr', Hst, Hj.
      cbn [Z.eqb Pos.eqb fst snd].
      split; [reflexivity |]. split; [reflexivity |].
      unfold events_since. traces. reflexivity.
Qed.

Lemma get_user_info_outcomes_malformed :
  let net := Sample.provider Sample.malformed in
  let w := Sample.request initial_session Sample.callback in
  fst (get_user_info net (Flow_credentials (create_flow Sample.environ) Sample.tokens) w) =
    Raise (Exn "JSONDecodeError" "Expecting value: line 1 column 1 (char 0)") /\
  fst (main Sample.environ net w) = Return tt /\
  session (snd (main Sample.environ net w)) = initial_session.
Proof.
  cbv zeta.
  destruct (get_user_info_outcomes (Sample.provider Sample.malformed)
              (Flow_credentials (create_flow Sample.environ) Sample.tokens)
              (Sample.request initial_session Sample.callback)
              {| status_code := 200;
                 json := Threw (Exn "JSONDecodeError" "Expecting value: line 1 column 1 (char 0)") |}
              eq_refl) as (_ & _ & H).
  destruct (H _ eq_refl eq_refl) as [Hraise Hmain].
  split; [exact Hraise |].
  assert (Hcfg : configured Sample.environ) by (split; reflexivity).
  assert (Hq : carries_code (Sample.request initial_session Sample.callback) "abc")
    by (exists []; reflexivity).
  assert (Hc : "abc" <> "") by discriminate.
  destruct (Hmain Sample.environ (Sample.request initial_session Sample.callback)
              "abc" Sample.tokens Hcfg eq_refl Hq Hc eq_refl eq_refl)
    as (H1 & H2 & _).
  split; [exact H1 | exact H2].
Defined.

(** Claim C5.  With a non-empty client id and redirect URI,
    [get_authorization_url] returns the authorization endpoint followed
    by an encoded query whose parameters include [access_type=offline],
    [include_granted_scopes=true], [prompt=consent],
    [response_type=code], the configured client id, the configured
    redirect URI and the space-joined scopes; every parameter appears
    in the URL percent-encoded. *)
Theorem authorization_url_parameters environ net w cid :
  CLIENT_ID environ = Some cid -> cid <> "" ->
  REDIRECT_URI environ <> "" ->
  exists params,
    fst (get_authorization_url environ net w) =
      Return ("https://accounts.google.com/o/oauth2/auth" +:+ "?" +:+ urlencode params) /\
    In ("access_type", "offline") params /\
    In ("include_granted_scopes", "true") params /\
    In ("prompt", "consent") params /\
    In ("response_type", "code") params /\
    In ("client_id", cid) params /\
    In ("redirect_uri", REDIRECT_URI environ) params /\
    In ("scope", String.concat " " SCOPES) params /\
    forall k v, In (k, v) params ->
      exists pre post,
        urlencode params = pre +:+ (quote_plus k +:+ "=" +:+ quote_plus v) +:+ post.
Proof.
  intros Hid Hcid Hred.
  exists (grant_params (create_flow environ) (generate_token net (drawn w))
            authorization_kwargs).
  rewrite get_authorization_url_eq. cbn [fst].
  split; [reflexivity |].
  unfold grant_params, authorization_kwargs.
  cbn [client_id redirect_uri scopes create_flow SCOPES].
  rewrite Hid, (truthy_str_some _ Hred).
  cbn [str_of].
  repeat split.
  all: try (rewrite ?in_app_iff; cbn; tauto).
  intros k v. apply urlencode_component.
Qed.

Lemma authorization_url_parameters_sample :
  fst (get_authorization_url Sample.environ (Sample.provider (Sample.ok Sample.ada))
         (Sample.request initial_session ∅)) =
    Return "https://accounts.google.com/o/oauth2/auth?response_type=code&client_id=client-1&redirect_uri=https%3A%2F%2Fyour-app-name.streamlit.app&scope=openid+https%3A%2F%2Fwww.googleapis.com%2Fauth%2Fuserinfo.email+https%3A%2F%2Fwww.googleapis.com%2Fauth%2Fuserinfo.profile&state=nonce-0&access_type=offline&include_granted_scopes=true&prompt=consent" /\
  exists params,
    fst (get_authorization_url Sample.environ (Sample.provider (Sample.ok Sample.ada))
           (Sample.request initial_session ∅)) =
      Return ("https://accounts.google.com/o/oauth2/auth" +:+ "?" +:+ urlencode params) /\
    In ("redirect_uri", "https://your-app-name.streamlit.app") params /\
    In ("scope", "openid https://www.googleapis.com/auth/userinfo.email https://www.googleapis.com/auth/userinfo.profile") params.
Proof.
  split; [vm_compute; reflexivity |].
  assert (Hid : CLIENT_ID Sample.environ = Some "client-1") by reflexivity.
  assert (Hcid : "client-1" <> "") by discriminate.
  assert (Hred : REDIRECT_URI Sample.environ <> "") by discriminate.
  destruct (authorization_url_parameters Sample.environ
              (Sample.provider (Sample.ok Sample.ada))
              (Sample.request initial_session ∅) "client-1" Hid Hcid Hred)
    as (params & Hurl & _ & _ & _ & _ & _ & Hr & Hs & _).
  exists params. split; [exact Hurl |]. split; [exact Hr | exact Hs].
Defined.

(** Claim C6.  When the client id or the client secret is absent or
    empty, [main] reports the missing configuration and returns at
    once, on any request: the session, the query string and the random
    source are untouched, and the run logs no outbound call. *)
Theorem main_requires_configuration environ net w :
  unset (CLIENT_ID environ) \/ unset (CLIENT_SECRET environ) ->
  let w' := snd (main environ net w) in
  fst (main environ net w) = Return tt /\
  session w' = session w /\
  query_params w' = query_params w /\
  drawn w' = drawn w /\
  events_since w w'
    [UiTitle "Streamlit Google Authentication";
     UiError "Google OAuth credentials are not set. Please set the GOOGLE_CLIENT_ID and GOOGLE_CLIENT_SECRET environment variables.";
     UiInfo "For local development, you can use: export GOOGLE_CLIENT_ID=your_client_id export GOOGLE_CLIENT_SECRET=your_client_secret export REDIRECT_URI=your_redirect_uri"] /\
  forall delta, events_since w w' delta -> List.filter is_network delta = [].
Proof.
  intros H w'. subst w'.
  assert (Hcheck : negb (truthy_str (CLIENT_ID environ)) ||
                   negb (truthy_str (CLIENT_SECRET environ)) = true).
  { destruct H as [[-> | ->] | [-> | ->]]; cbn;
      try reflexivity; apply orb_true_r. }
  rewrite main_eq. cbn zeta. rewrite Hcheck. cbn [fst snd].
  split; [reflexivity |]. split; [reflexivity |]. split; [reflexivity |].
  split; [reflexivity |].
  assert (He : forall delta, events_since w
             (log (UiInfo "For local development, you can use: export GOOGLE_CLIENT_ID=your_client_id export GOOGLE_CLIENT_SECRET=your_client_secret export REDIRECT_URI=your_redirect_uri")
                (log (UiError "Google OAuth credentials are not set. Please set the GOOGLE_CLIENT_ID and GOOGLE_CLIENT_SECRET environment variables.")
                   (log (UiTitle "Streamlit Google Authentication") w))) delta ->
           delta = [UiTitle "Streamlit Google Authentication";
     UiError "Google OAuth credentials are not set. Please set the GOOGLE_CLIENT_ID and GOOGLE_CLIENT_SECRET environment variables.";
     UiInfo "For local development, you can use: export GOOGLE_CLIENT_ID=your_client_id export GOOGLE_CLIENT_SECRET=your_client_secret export REDIRECT_URI=your_redirect_uri"]).
  { intros delta Hd. unfold events_since in Hd. revert Hd. traces. intros Hd.
    apply app_inv_head in Hd. symmetry. exact Hd. }
  split.
  - unfold events_since. traces. reflexivity.
  - intros delta Hd. rewrite (He delta Hd). reflexivity.
Qed.

Lemma main_requires_configuration_empty_secret :
  let w := Sample.request initial_session Sample.callback in
  let net := Sample.provider (Sample.ok Sample.ada) in
  CLIENT_SECRET Sample.environ_no_secret = Some "" /\
  fst (main Sample.environ_no_secret net w) = Return tt /\
  session (snd (main Sample.environ_no_secret net w)) = initial_session /\
  forall delta, events_since w (snd (main Sample.environ_no_secret net w)) delta ->
                List.filter is_network delta = [].
Proof.
  assert (Hsecret : CLIENT_SECRET Sample.environ_no_secret = Some "") by reflexivity.
  pose proof (main_requires_configuration Sample.environ_no_secret
                (Sample.provider (Sample.ok Sample.ada))
                (Sample.request initial_session Sample.callback)
                (or_intror (or_intror Hsecret))) as H.
  cbv zeta in *. tauto.
Defined.

(** Claim C7.  From any state [sign_out] returns normally, leaves the
    session unauthenticated with [user_info] and [credentials] reset to
    [None], performs three session writes and no outbound call, and a
    second sign-out changes nothing more. *)
Theorem sign_out_resets w :
  let w' := snd (sign_out w) in
  fst (sign_out w) = Return tt /\
  session w' = signed_out_session /\
  Unauthenticated (session w') /\
  query_params w' = query_params w /\
  events_since w w' [SetUserInfo PNone; SetIsAuthenticated false; SetCredentials None] /\
  List.filter is_network [SetUserInfo PNone; SetIsAuthenticated false; SetCredentials None] = [] /\
  session (snd (sign_out w')) = session w'.
Proof.
  cbv zeta. unfold sign_out, bind, write_user_info, write_is_authenticated, write_credentials.
  cbn [fst snd]. repeat split. unfold events_since. traces. reflexivity.
Qed.

(** Claim C8 fails as stated: the state in the issued URL is not kept
    anywhere (session, query string and events are as before the
    call), and a callback carrying another state is accepted. *)
Lemma authorization_state_not_kept :
  let net := Sample.provider (Sample.ok Sample.ada) in
  let w := Sample.request initial_session ∅ in
  let issued := get_authorization_url Sample.environ net w in
  fst issued =
    Return "https://accounts.google.com/o/oauth2/auth?response_type=code&client_id=client-1&redirect_uri=https%3A%2F%2Fyour-app-name.streamlit.app&scope=openid+https%3A%2F%2Fwww.googleapis.com%2Fauth%2Fuserinfo.email+https%3A%2F%2Fwww.googleapis.com%2Fauth%2Fuserinfo.profile&state=nonce-0&access_type=offline&include_granted_scopes=true&prompt=consent" /\
  session (snd issued) = session w /\
  query_params (snd issued) = query_params w /\
  trace (snd issued) = trace w /\
  Sample.forged_callback !! "state" = Some ["forged"] /\
  Authenticated
    (session (snd (main Sample.environ net (set_query Sample.forged_callback (snd issued))))).
Proof.
  cbv zeta. split; [vm_compute; reflexivity |].
  split; [reflexivity |]. split; [reflexivity |]. split; [reflexivity |].
  split; [reflexivity |]. vm_compute. reflexivity.
Qed.

(** Claim C8, amended.  The URL [get_authorization_url] returns carries
    the state token the OAuth library draws for that call, and a second
    call carries the library's next token; the script keeps no record
    of it (the call changes nothing but the count of drawn tokens), and
    [main] behaves the same whatever [state] parameter comes back. *)
Theorem authorization_url_state environ net w :
  generate_token net (drawn w) <> "" ->
  fst (get_authorization_url environ net w) =
    Return ("https://accounts.google.com/o/oauth2/auth" +:+ "?" +:+
            urlencode (grant_params (create_flow environ)
                         (generate_token net (drawn w)) authorization_kwargs)) /\
  In ("state", generate_token net (drawn w))
     (grant_params (create_flow environ) (generate_token net (drawn w))
        authorization_kwargs) /\
  fst (get_authorization_url environ net (snd (get_authorization_url environ net w))) =
    Return ("https://accounts.google.com/o/oauth2/auth" +:+ "?" +:+
            urlencode (grant_params (create_flow environ)
                         (generate_token net (S (drawn w))) authorization_kwargs)) /\
  snd (get_authorization_url environ net w) = draw w /\
  forall values,
    observe (main environ net (set_query (<["state" := values]> (query_params w)) w)) =
    observe (main environ net w).
Proof.
  intros Hstate. rewrite !get_authorization_url_eq. cbn [fst snd drawn draw].
  split; [reflexivity |]. split; [| split; [reflexivity | split; [reflexivity |]]].
  - unfold grant_params. rewrite (truthy_str_some _ Hstate).
    rewrite !in_app_iff. cbn [In]. tauto.
  - intros values. apply main_reads_code_only; [repeat split |].
    cbn [query_params set_query]. apply lookup_insert_ne. discriminate.
Qed.

Lemma authorization_url_state_sample :
  let net := Sample.provider (Sample.ok Sample.ada) in
  let w := Sample.request initial_session Sample.callback in
  generate_token net (drawn w) = "nonce-0" /\
  snd (get_authorization_url Sample.environ net w) = draw w /\
  observe (main Sample.environ net (set_query Sample.forged_callback w)) =
  observe (main Sample.environ net w).
Proof.
  cbv zeta. split; [reflexivity |].
  assert (Hstate : generate_token (Sample.provider (Sample.ok Sample.ada))
                     (drawn (Sample.request initial_session Sample.callback)) <> "")
    by discriminate.
  destruct (authorization_url_state Sample.environ (Sample.provider (Sample.ok Sample.ada))
              (Sample.request initial_session Sample.callback) Hstate)
    as (_ & _ & _ & Hw & Hmain).
  split; [exact Hw |]. exact (Hmain ["forged"]).
Defined.

(** Claim C9.  A request whose first [code] value is the empty string
    is handled exactly like the same request without a [code]
    parameter: same outcome, session, events and random draws.  The
    session is left as it is, no outbound call and no session write is
    logged, so the exchange is never entered; and with the
    configuration set and no session yet, [main] shows the sign-in
    prompt. *)
Theorem empty_code_is_no_code environ net w rest :
  let w_empty := set_query (<["code" := "" :: rest]> (query_params w)) w in
  let w_none := set_query (delete "code" (query_params w)) w in
  observe (main environ net w_empty) = observe (main environ net w_none) /\
  session (snd (main environ net w_empty)) = session w /\
  (exists delta,
     events_since w_empty (snd (main environ net w_empty)) delta /\
     List.filter is_network delta = [] /\
     List.filter is_session_write delta = []) /\
  (configured environ -> Unauthenticated (session w) ->
   main environ net w_empty =
   show_login environ net (log (UiTitle "Streamlit Google Authentication") w_empty)).
Proof.
  intros w_empty w_none.
  assert (Hq : query_params w_empty !! "code" = Some ("" :: rest))
    by apply lookup_insert_eq.
  assert (Hn : query_params w_none !! "code" = None) by apply lookup_delete_eq.
  split; [| split; [| split]].
  - apply (main_empty_code environ net w_empty w_none rest); auto.
    repeat split.
  - apply (main_empty_code_passive environ net w_empty rest Hq).
  - destruct (main_empty_code_passive environ net w_empty rest Hq)
      as (_ & delta & Hd & Hl).
    exists delta. split; [exact Hd |]. split.
    + apply local_events_no_network, Hl.
    + clear Hd. induction Hl as [| e l [_ Hw] _ IH]; [reflexivity |].
      cbn [List.filter]. now rewrite Hw.
  - intros Hcfg Hs.
    apply (main_shows_login environ net w_empty (Some ("" :: rest)) Hcfg Hs Hq).
    right. exists rest. reflexivity.
Qed.

Lemma empty_code_is_no_code_prompt :
  let net := Sample.provider (Sample.ok Sample.ada) in
  let w := Sample.request initial_session ∅ in
  let w_empty := set_query (<["code" := [""]]> ∅) w in
  main Sample.environ net w_empty =
  show_login Sample.environ net (log (UiTitle "Streamlit Google Authentication") w_empty).
Proof.
  cbv zeta.
  destruct (empty_code_is_no_code Sample.environ (Sample.provider (Sample.ok Sample.ada))
              (Sample.request initial_session ∅) []) as (_ & _ & _ & H).
  apply H; [split; reflexivity | reflexivity].
Defined.

(** Claim C10.  After a successful exchange and a 200 answer to the
    profile request: if the body is the empty object, [main] reports
    the failed fetch and the session stays as it was, unauthenticated;
    if the body is any non-empty object, with or without an [id],
    [main] stores that object unchanged as [user_info] and the session
    becomes authenticated. *)
Theorem empty_profile_rejected_others_stored environ net w code t r :
  configured environ ->
  Unauthenticated (session w) ->
  carries_code w code -> code <> "" ->
  token_endpoint net (create_flow environ) code = Answered t ->
  requests_get net userinfo_url (bearer t) = Answered r ->
  status_code r = 200%Z ->
  let w' := snd (main environ net w) in
  (json r = Answered (PDict []) ->
   fst (main environ net w) = Return tt /\
   session w' = session w /\
   Unauthenticated (session w') /\
   events_since w w'
     [UiTitle "Streamlit Google Authentication";
      UiSpinner "Completing authentication...";
      NetTokenExchange "https://oauth2.googleapis.com/token" code;
      NetUserInfoGet userinfo_url (bearer t);
      UiError "Failed to get user information."]) /\
  (forall kv kvs,
     json r = Answered (PDict (kv :: kvs)) ->
     fst (main environ net w) = Rerun /\
     Authenticated (session w') /\
     user_info (session w') = Present (PDict (kv :: kvs)) /\
     credentials (session w') = Present (Some (stored_credentials environ t))).
Proof.
  intros Hcfg Hs Hq Hc Ht Hr Hst w'. subst w'. split.
  - intros Hj.
    rewrite (main_enters_exchange environ net w code Hcfg Hs Hq Hc),
      complete_authentication_eq.
    cbn zeta. rewrite Ht, Hr, Hst, Hj. cbn [Z.eqb Pos.eqb truthy fst snd].
    split; [reflexivity |]. split; [reflexivity |]. split; [exact Hs |].
    unfold events_since. traces. reflexivity.
  - intros kv kvs Hj.
    assert (Hok : exchange_and_fetch_succeed environ net w code t (PDict (kv :: kvs))).
    { split; [exact Hq |]. split; [exact Hc |]. split; [exact Ht |].
      exists r. repeat split; assumption. }
    rewrite (main_success_eq environ net w code t _ Hcfg Hs Hok).
    repeat split.
Qed.

Lemma empty_profile_rejected_others_stored_no_id :
  let w := Sample.request initial_session Sample.callback in
  let net := Sample.provider (Sample.ok Sample.anonymous) in
  dict_get [("name", PStr "Ada")] "id" PNone = PNone /\
  Authenticated (session (snd (main Sample.environ net w))) /\
  user_info (session (snd (main Sample.environ net w))) = Present Sample.anonymous.
Proof.
  cbv zeta. split; [reflexivity |].
  assert (Hcfg : configured Sample.environ) by (split; reflexivity).
  assert (Hs : Unauthenticated
                 (session (Sample.request initial_session Sample.callback)))
    by reflexivity.
  assert (Hq : carries_code (Sample.request initial_session Sample.callback) "abc")
    by (exists []; reflexivity).
  assert (Hc : "abc" <> "") by discriminate.
  destruct (empty_profile_rejected_others_stored Sample.environ
              (Sample.provider (Sample.ok Sample.anonymous))
              (Sample.request initial_session Sample.callback)
              "abc" Sample.tokens
              {| status_code := 200; json := Answered Sample.anonymous |}
              Hcfg Hs Hq Hc eq_refl eq_refl eq_refl) as [_ H].
  destruct (H ("name", PStr "Ada") [] eq_refl) as (_ & H2 & H3 & _).
  split; [exact H2 | exact H3].
Defined.

(** * Further properties of the script *)

(** Property X1.  The initialisation of lines 20-24 always returns
    normally and leaves both [user_info] and [is_authenticated] set: a
    key that was missing gets its default ([None], [False]), a key that
    was there keeps its value, so a signed-in session survives every
    rerun of the script.  [credentials] and the query string are not
    touched, and running the initialisation twice is the same as
    running it once. *)
Theorem init_session_state_establishes w :
  let w' := snd (init_session_state w) in
  fst (init_session_state w) = Return tt /\
  user_info (session w') =
    match user_info (session w) with
    | Absent => Present PNone
    | Present v => Present v
    end /\
  is_authenticated (session w') =
    match is_authenticated (session w) with
    | Absent => Present false
    | Present b => Present b
    end /\
  credentials (session w') = credentials (session w) /\
  query_params w' = query_params w /\
  session (snd (init_session_state w')) = session w'.
Proof.
  destruct w as [[u a c] q t d]. unfold init_session_state, bind.
  cbn [session user_info is_authenticated].
  destruct u, a; cbn; repeat split.
Qed.



(** Property X3.  [main] accepts any non-empty value as a profile, but
    [display_user_info] can only show a dictionary.  If the profile
    request answers 200 with a non-empty value that is not an object
    (an array, a string, a number), [main] signs the user in, and every
    later run of [main] on that session raises [AttributeError] right
    after the title: nothing is shown, not even the sign-out button,
    and the session stays as it is. *)
Theorem non_object_profile_breaks_display environ net w code t profile :
  configured environ ->
  Unauthenticated (session w) ->
  exchange_and_fetch_succeed environ net w code t profile ->
  (forall kvs, profile <> PDict kvs) ->
  forall net2 query,
    query !! "code" <> Some [] ->
    let w1 := set_query query (snd (main environ net w)) in
    Authenticated (session w1) /\
    user_info (session w1) = Present profile /\
    exists e,
      fst (main environ net2 w1) = Raise e /\
      exn_class e = "AttributeError" /\
      session (snd (main environ net2 w1)) = session w1 /\
      events_since w1 (snd (main environ net2 w1))
        [UiTitle "Streamlit Google Authentication"].
Proof.
  intros Hcfg Hs Hok Hnd net2 query Hq w1. subst w1.
  rewrite (main_success_eq environ net w code t profile Hcfg Hs Hok). cbn [snd].
  set (w1 := set_query query _).
  assert (Hau : Authenticated (session w1)) by reflexivity.
  assert (Hu : user_info (session w1) = Present profile) by reflexivity.
  split; [exact Hau |]. split; [exact Hu |].
  destruct Hok as (_ & _ & _ & r & _ & _ & _ & Hp).
  rewrite main_eq. cbn zeta. rewrite (configured_check environ Hcfg).
  set (w0 := log (UiTitle "Streamlit Google Authentication") w1).
  assert (Hafter : forall c,
            after_code environ net2 c w0 =
            (Raise (Exn "AttributeError" "object has no attribute 'get'"), w0)).
  { intros c. unfold after_code, bind at 1.
    rewrite (already_authenticated_yes w0 profile Hau Hu), Hp.
    unfold bind at 1. unfold display_user_info, bind at 1. unfold read_user_info.
    change (session w0) with (session w1). rewrite Hu, Hp.
    destruct profile as [| b | z | s | l | kvs]; try reflexivity.
    exfalso. exact (Hnd kvs eq_refl). }
  change (query_params w1) with query.
  destruct (query !! "code") as [[| c rest] |]; [congruence | |];
    rewrite Hafter; eexists; repeat split.
Qed.

Lemma non_object_profile_breaks_display_array :
  let net := Sample.provider (Sample.ok (PList [PInt 1])) in
  let w := Sample.request initial_session Sample.callback in
  let w1 := set_query ∅ (snd (main Sample.environ net w)) in
  truthy (PList [PInt 1]) = true /\
  Authenticated (session w1) /\
  exists e,
    fst (main Sample.environ net w1) = Raise e /\
    exn_class e = "AttributeError".
Proof.
  cbv zeta. split; [reflexivity |].
  assert (Hcfg : configured Sample.environ) by (split; reflexivity).
  assert (Hok : exchange_and_fetch_succeed Sample.environ
                  (Sample.provider (Sample.ok (PList [PInt 1])))
                  (Sample.request initial_session Sample.callback)
                  "abc" Sample.tokens (PList [PInt 1])).
  { split; [exists []; reflexivity |]. split; [discriminate |].
    split; [reflexivity |].
    exists {| status_code := 200; json := Answered (PList [PInt 1]) |}.
    repeat split. }
  assert (Hnd : forall kvs, PList [PInt 1] <> PDict kvs) by discriminate.
  assert (Hq : (∅ : gmap string (list string)) !! "code" <> Some []) by discriminate.
  destruct (non_object_profile_breaks_display Sample.environ
              (Sample.provider (Sample.ok (PList [PInt 1])))
              (Sample.request initial_session Sample.callback)
              "abc" Sample.tokens (PList [PInt 1]) Hcfg eq_refl Hok Hnd
              (Sample.provider (Sample.ok (PList [PInt 1]))) ∅ Hq)
    as (Hau & _ & e & He & Hc & _).
  split; [exact Hau |]. exists e. split; [exact He | exact Hc].
Defined.

(** Property X4.  A code that failed stays in the query string, and
    [main] keeps no record of it: after a run in which the exchange
    raised or the profile fetch failed, the next run on the world it
    left, against any provider, sends the same code to the token
    endpoint again. *)
Theorem failed_code_is_sent_again environ net w code :
  configured environ ->
  Unauthenticated (session w) ->
  carries_code w code -> code <> "" ->
  exchange_fails environ net code \/
  (exists t, token_endpoint net (create_flow environ) code = Answered t /\
             profile_fetch_fails net t) ->
  forall net2,
    let w1 := snd (main environ net w) in
    carries_code w1 code /\
    Unauthenticated (session w1) /\
    exists delta,
      events_since w1 (snd (main environ net2 w1))
        (UiTitle "Streamlit Google Authentication"
         :: UiSpinner "Completing authentication..."
         :: NetTokenExchange "https://oauth2.googleapis.com/token" code
         :: delta).
Proof.
  intros Hcfg Hs Hq Hc Hfail net2 w1.
  assert (Hkept : query_params w1 = query_params w /\ session w1 = session w).
  { subst w1. destruct Hfail as [[e Ht] | (t & Ht & Hf)].
    - rewrite (main_exchange_raises_eq environ net w code e Hcfg Hs Hq Hc Ht).
      split; reflexivity.
    - destruct (main_fetch_fails_eq environ net w code t Hcfg Hs Hq Hc Ht Hf) as [msg ->].
      split; reflexivity. }
  clearbody w1. destruct Hkept as [Hq1' Hs1'].
  assert (Hq1 : carries_code w1 code).
  { destruct Hq as [rest Hq]. exists rest. rewrite Hq1'. exact Hq. }
  assert (Hs1 : Unauthenticated (session w1)).
  { unfold Unauthenticated. rewrite Hs1'. exact Hs. }
  split; [exact Hq1 |]. split; [exact Hs1 |].
  rewrite (main_enters_exchange environ net2 w1 code Hcfg Hs1 Hq1 Hc),
    complete_authentication_eq.
  cbn zeta. unfold events_since.
  destruct (token_endpoint net2 (create_flow environ) code) as [t | e2].
  - destruct (requests_get net2 userinfo_url (bearer t)) as [r | e2].
    + destruct (status_code r =? 200)%Z.
      * destruct (json r) as [v | e2].
        -- destruct (truthy v); eexists; unfold authenticated_world; cbn [snd];
             traces; reflexivity.
        -- eexists. cbn [snd]. traces. reflexivity.
      * eexists. cbn [snd]. traces. reflexivity.
    + eexists. cbn [snd]. traces. reflexivity.
  - eexists. cbn [snd]. traces. reflexivity.
Qed.

Lemma failed_code_is_sent_again_rejected :
  let w := Sample.request initial_session Sample.callback in
  let w1 := snd (main Sample.environ Sample.rejecting w) in
  carries_code w1 "abc" /\
  exists delta,
    events_since w1 (snd (main Sample.environ Sample.rejecting w1))
      (UiTitle "Streamlit Google Authentication"
       :: UiSpinner "Completing authentication..."
       :: NetTokenExchange "https://oauth2.googleapis.com/token" "abc"
       :: delta).
Proof.
  cbv zeta.
  assert (Hcfg : configured Sample.environ) by (split; reflexivity).
  assert (Hq : carries_code (Sample.request initial_session Sample.callback) "abc")
    by (exists []; reflexivity).
  assert (Hc : "abc" <> "") by discriminate.
  assert (Hf : exchange_fails Sample.environ Sample.rejecting "abc")
    by (eexists; reflexivity).
  destruct (failed_code_is_sent_again Sample.environ Sample.rejecting
              (Sample.request initial_session Sample.callback) "abc"
              Hcfg eq_refl Hq Hc (or_introl Hf) Sample.rejecting) as (H1 & _ & H2).
  split; [exact H1 | exact H2].
Defined.

Lemma steady_ret {A} (a : A) : steady (ret a).
Proof. intros w. repeat split. discriminate. Qed.

Lemma steady_raise {A} e : steady (@raise A e).
Proof. intros w. repeat split. discriminate. Qed.

Lemma steady_emit e : steady (emit e).
Proof. intros w. repeat split. discriminate. Qed.

Lemma steady_bind {A B} (m : M A) (k : A -> M B) :
  steady m -> (forall a, steady (k a)) -> steady (bind m k).
Proof.
  intros Hm Hk w. unfold bind.
  destruct (Hm w) as (Hr & Hs & Hq).
  destruct (m w) as [[a | e |] u]; cbn [fst snd] in *.
  - destruct (Hk a u) as (Hr' & Hs' & Hq').
    split; [exact Hr' |]. split; congruence.
  - split; [discriminate |]. split; assumption.
  - contradiction.
Qed.

Lemma steady_read_user_info : steady read_user_info.
Proof.
  intros w. unfold read_user_info.
  destruct (user_info (session w)); repeat split; discriminate.
Qed.

Lemma steady_read_is_authenticated : steady read_is_authenticated.
Proof.
  intros w. unfold read_is_authenticated.
  destruct (is_authenticated (session w)); repeat split; discriminate.
Qed.

Lemma steady_authorization_url net flow kwargs :
  steady (Flow_authorization_url net flow kwargs).
Proof. intros w. repeat split. discriminate. Qed.

Create HintDb steady.
#[local] Hint Resolve steady_ret steady_raise steady_emit steady_bind
  steady_read_user_info steady_read_is_authenticated steady_authorization_url : steady.

Ltac steady :=
  unfold st_title, st_error, st_info, st_write, st_markdown, st_spinner;
  repeat first
    [ progress intros
    | solve [auto with steady]
    | apply steady_bind
    | match goal with
      | |- steady (if ?b then _ else _) => destruct b
      | |- steady (match ?x with _ => _ end) => destruct x
      end ].

Lemma steady_after_code environ net code :
  truthy_str code = false -> steady (after_code environ net code).
Proof.
  intros H. unfold after_code. rewrite H.
  unfold already_authenticated, display_user_info, show_login, get_authorization_url.
  steady.
Qed.

(** Property X5.  Whatever the configuration, the request and the
    provider's answers, a run of [main] ends in one of two ways.
    Either it asks for no rerun and leaves the session and the query
    string exactly as they were; or it ends in the rerun signal with
    the query string cleared and all three session keys written
    together: a non-empty profile, [is_authenticated = True] and the
    credentials of the exchange.  No run leaves the session partly
    written, and the code is removed from the URL only on success. *)
Theorem main_all_or_nothing environ net w :
  let w' := snd (main environ net w) in
  (fst (main environ net w) <> Rerun /\
   session w' = session w /\
   query_params w' = query_params w) \/
  (fst (main environ net w) = Rerun /\
   query_params w' = ∅ /\
   exists t profile,
     truthy profile = true /\
     session w' =
       {| user_info := Present profile;
          is_authenticated := Present true;
          credentials := Present (Some (stored_credentials environ t)) |}).
Proof.
  cbv zeta. remember (main environ net w) as res eqn:Hres.
  rewrite main_eq in Hres. cbn zeta in Hres.
  destruct (negb _ || negb _);
    [left; subst res; repeat split; discriminate |].
  set (w0 := log (UiTitle "Streamlit Google Authentication") w) in Hres.
  assert (Hsteady : forall code, truthy_str code = false ->
            fst (after_code environ net code w0) <> Rerun /\
            session (snd (after_code environ net code w0)) = session w /\
            query_params (snd (after_code environ net code w0)) = query_params w).
  { intros code Hc. apply (steady_after_code environ net code Hc w0). }
  destruct (query_params w !! "code") as [[| c rest] |].
  - left. subst res. repeat split. discriminate.
  - destruct (truthy_str (Some c)) eqn:Hc; [| left; subst res; apply Hsteady, Hc].
    unfold after_code, bind at 1 in Hres.
    pose proof (already_authenticated_world w0) as Hw.
    destruct (already_authenticated w0) as [[[|] | e |] u] eqn:Hau;
      cbn [snd] in Hw; subst u.
    + left. subst res.
      assert (Hd : steady (display_user_info ;;
                           st_write "## Your Application Content" ;;
                           st_write "This is the protected area of your application."))
        by (unfold display_user_info; steady).
      apply (Hd w0).
    + rewrite Hc in Hres. unfold bind at 1 in Hres.
      unfold st_spinner, emit at 1 in Hres.
      change (default "" (Some c)) with c in Hres.
      rewrite complete_authentication_eq in Hres. cbn zeta in Hres.
      destruct (token_endpoint net (create_flow environ) c) as [t | e];
        [| left; subst res; repeat split; discriminate].
      destruct (requests_get net userinfo_url (bearer t)) as [r | e];
        [| left; subst res; repeat split; discriminate].
      destruct (status_code r =? 200)%Z;
        [| left; subst res; repeat split; discriminate].
      destruct (json r) as [v | e];
        [| left; subst res; repeat split; discriminate].
      destruct (truthy v) eqn:Hv;
        [| left; subst res; repeat split; discriminate].
      right. subst res. split; [reflexivity |]. split; [reflexivity |].
      exists t, v. split; [exact Hv | reflexivity].
    + left. subst res. repeat split. discriminate.
    + exfalso.
      assert (Hn : fst (already_authenticated w0) <> Rerun).
      { assert (Hs : steady already_authenticated)
          by (unfold already_authenticated; steady).
        apply (Hs w0). }
      rewrite Hau in Hn. exact (Hn eq_refl).
  - left. subst res. apply Hsteady. reflexivity.
Qed.






Lemma cblind_ret {A} (a : A) : credentials_blind (ret a).
Proof. intros w1 w2 H. split; [reflexivity | exact H]. Qed.

Lemma cblind_raise {A} e : credentials_blind (@raise A e).
Proof. intros w1 w2 H. split; [reflexivity | exact H]. Qed.

Lemma cblind_rerun {A} : credentials_blind (@st_experimental_rerun A).
Proof. intros w1 w2 H. split; [reflexivity | exact H]. Qed.

Lemma cblind_emit e : credentials_blind (emit e).
Proof.
  intros w1 w2 (Hu & Ha & Hq & Ht & Hd). unfold emit, same_but_credentials. cbn.
  rewrite Ht. repeat split; assumption.
Qed.

Lemma cblind_bind {A B} (m : M A) (k : A -> M B) :
  credentials_blind m -> (forall a, credentials_blind (k a)) ->
  credentials_blind (bind m k).
Proof.
  intros Hm Hk w1 w2 H. unfold bind.
  destruct (Hm w1 w2 H) as [Ho Hw].
  destruct (m w1) as [[a1 | e1 |] u1], (m w2) as [[a2 | e2 |] u2];
    cbn in Ho, Hw; try discriminate.
  - injection Ho as ->. apply Hk, Hw.
  - injection Ho as ->. split; [reflexivity | exact Hw].
  - split; [reflexivity | exact Hw].
Qed.

Lemma cblind_try_except {A} (m : M A) (h : exn -> M A) :
  credentials_blind m -> (forall e, credentials_blind (h e)) ->
  credentials_blind (try_except m h).
Proof.
  intros Hm Hh w1 w2 H. unfold try_except.
  destruct (Hm w1 w2 H) as [Ho Hw].
  destruct (m w1) as [[a1 | e1 |] u1], (m w2) as [[a2 | e2 |] u2];
    cbn in Ho, Hw; try discriminate.
  - split; [exact Ho | exact Hw].
  - injection Ho as ->. apply Hh, Hw.
  - split; [reflexivity | exact Hw].
Qed.

Lemma cblind_read_user_info : credentials_blind read_user_info.
Proof.
  intros w1 w2 H. unfold read_user_info. pose proof H as (Hu & _).
  rewrite Hu. destruct (user_info (session w2)); (split; [reflexivity | exact H]).
Qed.

Lemma cblind_read_is_authenticated : credentials_blind read_is_authenticated.
Proof.
  intros w1 w2 H. unfold read_is_authenticated. pose proof H as (_ & Ha & _).
  rewrite Ha. destruct (is_authenticated (session w2)); (split; [reflexivity | exact H]).
Qed.

Lemma cblind_write_user_info v : credentials_blind (write_user_info v).
Proof.
  intros w1 w2 (Hu & Ha & Hq & Ht & Hd). unfold write_user_info, same_but_credentials. cbn.
  rewrite Ht. repeat split; assumption.
Qed.

Lemma cblind_write_is_authenticated b : credentials_blind (write_is_authenticated b).
Proof.
  intros w1 w2 (Hu & Ha & Hq & Ht & Hd).
  unfold write_is_authenticated, same_but_credentials. cbn.
  rewrite Ht. repeat split; assumption.
Qed.

Lemma cblind_write_credentials c : credentials_blind (write_credentials c).
Proof.
  intros w1 w2 (Hu & Ha & Hq & Ht & Hd). unfold write_credentials, same_but_credentials. cbn.
  rewrite Ht. repeat split; assumption.
Qed.

Lemma cblind_get_query_params : credentials_blind st_experimental_get_query_params.
Proof.
  intros w1 w2 H. unfold st_experimental_get_query_params. pose proof H as (_ & _ & Hq & _).
  rewrite Hq. split; [reflexivity | exact H].
Qed.

Lemma cblind_set_query_params : credentials_blind st_experimental_set_query_params.
Proof.
  intros w1 w2 (Hu & Ha & Hq & Ht & Hd).
  unfold st_experimental_set_query_params, same_but_credentials. cbn.
  repeat split; assumption.
Qed.

Lemma cblind_authorization_url net flow kwargs :
  credentials_blind (Flow_authorization_url net flow kwargs).
Proof.
  intros w1 w2 (Hu & Ha & Hq & Ht & Hd). unfold Flow_authorization_url, same_but_credentials.
  cbn. rewrite Hd. repeat split; assumption.
Qed.

Create HintDb cblind.
#[local] Hint Resolve cblind_ret cblind_raise cblind_rerun cblind_emit cblind_bind
  cblind_try_except cblind_read_user_info cblind_read_is_authenticated
  cblind_write_user_info cblind_write_is_authenticated cblind_write_credentials
  cblind_get_query_params cblind_set_query_params cblind_authorization_url : cblind.

Ltac cblind :=
  unfold st_title, st_error, st_info, st_write, st_markdown, st_spinner, response_json;
  repeat first
    [ progress intros
    | solve [auto with cblind]
    | apply cblind_bind | apply cblind_try_except
    | match goal with
      | |- credentials_blind (if ?b then _ else _) => destruct b
      | |- credentials_blind (match ?x with _ => _ end) => destruct x
      end ].

Lemma cblind_main environ net : credentials_blind (main environ net).
Proof.
  unfold main, first_code, already_authenticated, display_user_info,
    complete_authentication, exchange_code_for_token, get_user_info,
    Flow_fetch_token, requests_get_call, show_login, get_authorization_url.
  cblind.
Qed.

Lemma with_credentials_same c w : same_but_credentials w (with_credentials c w).
Proof. repeat split. Qed.

(** Property X7.  The dictionary stored under [credentials] is never
    read back: replace it by anything, or remove the key, and [main]
    ends the same way, logs the same events, draws the same tokens and
    leaves the same [user_info], [is_authenticated] and query string.
    The tokens kept in the session are not used by the script. *)
Theorem main_never_reads_credentials environ net w c :
  let r1 := main environ net w in
  let r2 := main environ net (with_credentials c w) in
  fst r1 = fst r2 /\
  trace (snd r1) = trace (snd r2) /\
  drawn (snd r1) = drawn (snd r2) /\
  query_params (snd r1) = query_params (snd r2) /\
  user_info (session (snd r1)) = user_info (session (snd r2)) /\
  is_authenticated (session (snd r1)) = is_authenticated (session (snd r2)).
Proof.
  cbv zeta.
  destruct (cblind_main environ net w (with_credentials c w) (with_credentials_same c w))
    as (Ho & Hu & Ha & Hq & Ht & Hd).
  repeat split; assumption.
Qed.

(** Property X8.  Signing out brings the script back to its first
    visit: on the session a sign-out leaves, [main] ends the same way,
    logs the same events and leaves the same [user_info] and
    [is_authenticated] as on the initial session, for every request and
    provider. *)
Theorem main_after_sign_out_as_first_visit environ net w query :
  let w1 := set_query query (snd (sign_out w)) in
  let w0 := set_session initial_session w1 in
  session w1 = signed_out_session /\
  fst (main environ net w1) = fst (main environ net w0) /\
  trace (snd (main environ net w1)) = trace (snd (main environ net w0)) /\
  query_params (snd (main environ net w1)) = query_params (snd (main environ net w0)) /\
  user_info (session (snd (main environ net w1))) =
    user_info (session (snd (main environ net w0))) /\
  is_authenticated (session (snd (main environ net w1))) =
    is_authenticated (session (snd (main environ net w0))).
Proof.
  cbv zeta. split; [reflexivity |].
  set (w1 := set_query query (snd (sign_out w))).
  assert (H : same_but_credentials w1 (set_session initial_session w1))
    by (repeat split).
  destruct (cblind_main environ net w1 (set_session initial_session w1) H)
    as (Ho & Hu & Ha & Hq & Ht & Hd).
  repeat split; assumption.
Qed.

Lemma all_chars_app p a b :
  all_chars p (a +:+ b) = all_chars p a && all_chars p b.
Proof.
  induction a as [| c a IH]; [reflexivity |].
  change (p c && all_chars p (a +:+ b) = p c && all_chars p a && all_chars p b).
  rewrite IH. apply andb_assoc.
Qed.

Lemma all_chars_weaken (p q : ascii -> bool) s :
  (forall c, p c = true -> q c = true) ->
  all_chars p s = true -> all_chars q s = true.
Proof.
  intros Hpq. induction s as [| c s IH]; [reflexivity |].
  cbn [all_chars]. rewrite !andb_true_iff. intros [Hc Hs].
  split; [apply Hpq, Hc | apply IH, Hs].
Qed.

Lemma percent_byte_encoded c : all_chars encoded_char (percent_byte c) = true.
Proof. destruct c as [[] [] [] [] [] [] [] []]; vm_compute; reflexivity. Qed.

(** An encoded value holds nothing but unreserved characters, [+] and
    percent escapes. *)
Lemma quote_plus_encoded s : all_chars encoded_char (quote_plus s) = true.
Proof.
  induction s as [| c s IH]; [reflexivity |].
  cbn [quote_plus]. rewrite all_chars_app, IH, andb_true_r.
  destruct (always_safe c) eqn:Hsafe.
  - cbn [all_chars]. unfold encoded_char. rewrite Hsafe. reflexivity.
  - destruct (Ascii.eqb c " "); [reflexivity | apply percent_byte_encoded].
Qed.

Lemma encode_pair_query kv : all_chars query_char (encode_pair kv) = true.
Proof.
  assert (Hw : forall c, encoded_char c = true -> query_char c = true).
  { intros c Hc. unfold query_char. rewrite Hc. reflexivity. }
  unfold encode_pair. rewrite !all_chars_app.
  rewrite (all_chars_weaken encoded_char query_char _ Hw (quote_plus_encoded (fst kv))).
  rewrite (all_chars_weaken encoded_char query_char _ Hw (quote_plus_encoded (snd kv))).
  reflexivity.
Qed.

Lemma urlencode_query params : all_chars query_char (urlencode params) = true.
Proof.
  unfold urlencode. induction params as [| p rest IH]; [reflexivity |].
  destruct rest as [| p' rest'].
  - apply encode_pair_query.
  - change (String.concat "&" (map encode_pair (p :: p' :: rest')))
      with (encode_pair p +:+ "&" +:+ String.concat "&" (map encode_pair (p' :: rest'))).
    rewrite !all_chars_app, encode_pair_query, IH. reflexivity.
Qed.

(** Property X9.  Whatever the configuration holds (any client id, any
    redirect URI) and whatever state token is drawn, the URL that
    [get_authorization_url] returns is the authorization endpoint, one
    [?], and a query made only of unreserved characters, [+], percent
    escapes and the separators [=] and [&]: no configured value can
    put a space, a [#], a second [?], a [/] or a [:] into the query. *)
Theorem authorization_url_is_well_formed environ net w :
  exists query,
    fst (get_authorization_url environ net w) =
      Return ("https://accounts.google.com/o/oauth2/auth" +:+ "?" +:+ query) /\
    all_chars query_char query = true /\
    all_chars (fun c => negb (Ascii.eqb c " " || Ascii.eqb c "#" || Ascii.eqb c "?" ||
                               Ascii.eqb c "/" || Ascii.eqb c ":"))
      query = true.
Proof.
  eexists. rewrite get_authorization_url_eq. cbn [fst].
  split; [reflexivity |]. split; [apply urlencode_query |].
  apply (all_chars_weaken query_char); [| apply urlencode_query].
  intros c. destruct c as [[] [] [] [] [] [] [] []]; vm_compute; congruence.
Qed.

(** Property X10.  An unauthenticated session holds no user data: in
    every session reachable from the initial one by runs of [main] and
    sign-outs, [is_authenticated = False] implies that [user_info] is
    [None] and that [credentials] is unset or [None].  Nothing of a
    former sign-in outlives the sign-out, and no failed sign-in leaves
    tokens behind. *)
Theorem unauthenticated_session_holds_nothing environ s :
  reachable environ s ->
  Unauthenticated s ->
  user_info s = Present PNone /\
  (credentials s = Absent \/ credentials s = Present None).
Proof.
  induction 1 as [| net w Hr IH | w Hr IH]; intros Hun.
  - split; [reflexivity | left; reflexivity].
  - destruct (main_session_cases environ net w)
      as [Hsame | (code & t & profile & _ & _ & _ & Hsess)].
    + rewrite Hsame in *. apply IH, Hun.
    + rewrite Hsess in Hun. discriminate Hun.
  - split; [reflexivity | right; reflexivity].
Qed.

Lemma unauthenticated_session_holds_nothing_after_sign_out :
  let net := Sample.provider (Sample.ok Sample.ada) in
  let w := Sample.request initial_session Sample.callback in
  let s := session (snd (sign_out (snd (main Sample.environ net w)))) in
  Authenticated (session (snd (main Sample.environ net w))) /\
  user_info s = Present PNone /\
  (credentials s = Absent \/ credentials s = Present None).
Proof.
  cbv zeta. split; [reflexivity |].
  apply (unauthenticated_session_holds_nothing Sample.environ).
  - apply reach_sign_out, reach_main, reach_initial.
  - reflexivity.
Defined.


